(** * nanobot web tools: [web_search] and [web_fetch]

    A shallow embedding of [nanobot/agent/tools/web.py] and the properties
    its specification states about it.

    Python [str] values are modelled by [string] (one [ascii] per
    character), a Python [int] by [Z], [None] by [option], a [dict] whose
    order is not observed by [gmap] and one whose order is observed by an
    association list.  Library functions whose tables are not part of the
    repository ([str.lower], [html.unescape], readability, httpx, the
    JSON codec) are section variables: every general theorem holds
    whatever they compute.  Concrete runs instantiate them. *)

From stdpp Require Import gmap strings list fin_maps pretty.
From Stdlib Require Import ZArith Ascii String Lia.

Local Open Scope string_scope.
Local Open Scope Z_scope.

(** ** Strings *)

Module Str.

(** [needle in hay] *)
Fixpoint contains (needle hay : string) : bool :=
  String.prefix needle hay ||
  match hay with
  | EmptyString => false
  | String _ rest => contains needle rest
  end.

(** [c in s] for a single character [c]. *)
Fixpoint has_char (c : ascii) (s : string) : bool :=
  match s with
  | EmptyString => false
  | String d rest => Ascii.eqb c d || has_char c rest
  end.

(** [s.find(c)] for a single character [c], when it is found. *)
Fixpoint index_char (c : ascii) (s : string) : option nat :=
  match s with
  | EmptyString => None
  | String d rest =>
      if Ascii.eqb c d then Some O else option_map S (index_char c rest)
  end.

Definition lower_char (c : ascii) : ascii :=
  let n := nat_of_ascii c in
  if (Nat.leb 65 n && Nat.leb n 90)%bool then ascii_of_nat (n + 32) else c.

(** [str.lower] on ASCII text. *)
Fixpoint ascii_lower (s : string) : string :=
  match s with
  | EmptyString => EmptyString
  | String c rest => String (lower_char c) (ascii_lower rest)
  end.

(** [s[:n]] and [s[n:]] for a natural number [n]. *)
Fixpoint take (n : nat) (s : string) : string :=
  match n, s with
  | S k, String c rest => String c (take k rest)
  | _, _ => EmptyString
  end.

Fixpoint drop (n : nat) (s : string) : string :=
  match n, s with
  | S k, String _ rest => drop k rest
  | _, _ => s
  end.

(** [len(s)] *)
Definition len (s : string) : Z := Z.of_nat (String.length s).

(** [s[:stop]]: a negative [stop] counts from the end. *)
Definition slice_to (stop : Z) (s : string) : string :=
  if stop <? 0
  then take (Z.to_nat (Z.max 0 (len s + stop))) s
  else take (Z.to_nat stop) s.

(** [str.isspace] on one character (code points below 256). *)
Definition is_space (c : ascii) : bool :=
  let n := nat_of_ascii c in
  ((Nat.leb 9 n && Nat.leb n 13) || (Nat.leb 28 n && Nat.leb n 32)
   || Nat.eqb n 133 || Nat.eqb n 160)%bool.

Fixpoint lstrip (s : string) : string :=
  match s with
  | EmptyString => EmptyString
  | String c rest => if is_space c then lstrip rest else s
  end.

Fixpoint rstrip (s : string) : string :=
  match s with
  | EmptyString => EmptyString
  | String c rest =>
      match rstrip rest with
      | EmptyString => if is_space c then EmptyString else String c EmptyString
      | kept => String c kept
      end
  end.

(** [s.strip()] *)
Definition strip (s : string) : string := rstrip (lstrip s).

(** ["\n".join(lines)] *)
Fixpoint join_lines (lines : list string) : string :=
  match lines with
  | [] => ""
  | [l] => l
  | l :: rest => l +:+ String "010" (join_lines rest)
  end.

(** Truth value of a string, and of an optional one. *)
Definition truthy (s : string) : bool := negb (String.eqb s "").

Definition truthy_opt (o : option string) : bool :=
  match o with
  | Some s => truthy s
  | None => false
  end.

End Str.

(** A Python dict whose insertion order is observed: the keys of the list
    are pairwise distinct and a new key goes to the end. *)
Module Dict.
Section Dict.

Context {K V : Type} `{EqDecision K}.

Fixpoint set (k : K) (v : V) (d : list (K * V)) : list (K * V) :=
  match d with
  | [] => [(k, v)]
  | (k', v') :: rest =>
      if decide (k = k') then (k', v) :: rest else (k', v') :: set k v rest
  end.

Fixpoint get (k : K) (d : list (K * V)) : option V :=
  match d with
  | [] => None
  | (k', v') :: rest => if decide (k = k') then Some v' else get k rest
  end.

(** [next(iter(d.keys()))] when [d] is not empty. *)
Definition first_key (d : list (K * V)) : option K :=
  match d with
  | [] => None
  | (k, _) :: _ => Some k
  end.

End Dict.
End Dict.

(** ** Data of the search tool *)

(** A value of the argument object sent to the remote operation. *)
Inductive value :=
| VStr (s : string)
| VInt (n : Z).

(** What a schema declares for one property. *)
Record param_info := { p_type : string; p_description : string }.

(** The input schema of a remote operation: [properties] keeps the
    declared order of its keys; a missing ["properties"] or ["required"]
    entry is the empty list, which is what [.get("properties", {})] and
    [.get("required", [])] make of it. *)
Record schema := {
  properties : list (string * param_info);
  required : list string
}.

Definition empty_schema : schema := {| properties := []; required := [] |}.

(** An entry of [result.tools]: [tool.get("name")] and
    [tool.get("inputSchema")]. *)
Record tool := {
  tool_name : option string;
  tool_inputSchema : option schema
}.

(** An entry of [result.content]. *)
Record content_block := {
  block_type : option string;
  block_text : option string
}.

(** An entry of [pages]. *)
Record page := {
  page_title : option string;
  page_url : option string;
  page_snippet : option string
}.

(** A decoded reply of the remote party, read through
    [.get("result", {})] and then [.get("tools", [])] or
    [.get("content", [])]. *)
Inductive rpc_reply :=
| ReplyTools (tools : list tool)
| ReplyContent (content : list content_block)
| ReplyOther.

(** The instance attributes of [WebSearchTool]. *)
Record search_tool := {
  _init_api_key : option string;
  max_results : Z;
  base_url : string;
  _session_initialized : bool;
  _available_tools : list (option string * tool);
  _search_tool_name : option string;
  _input_schema : schema
}.

(** [WebSearchTool(api_key, max_results)] *)
Definition new_search_tool (api_key : option string) (max_results : Z)
  : search_tool :=
  {| _init_api_key := api_key;
     max_results := max_results;
     base_url := "https://dashscope.aliyuncs.com/api/v1/mcps/WebSearch/mcp";
     _session_initialized := false;
     _available_tools := [];
     _search_tool_name := None;
     _input_schema := empty_schema |}.

Definition set_available_tools (d : list (option string * tool))
    (self : search_tool) : search_tool :=
  {| _init_api_key := _init_api_key self;
     max_results := max_results self;
     base_url := base_url self;
     _session_initialized := _session_initialized self;
     _available_tools := d;
     _search_tool_name := _search_tool_name self;
     _input_schema := _input_schema self |}.

Definition set_search_tool_name (name : option string) (self : search_tool)
  : search_tool :=
  {| _init_api_key := _init_api_key self;
     max_results := max_results self;
     base_url := base_url self;
     _session_initialized := _session_initialized self;
     _available_tools := _available_tools self;
     _search_tool_name := name;
     _input_schema := _input_schema self |}.

(** The two assignments that end a handshake. *)
Definition set_ready (s : schema) (self : search_tool) : search_tool :=
  {| _init_api_key := _init_api_key self;
     max_results := max_results self;
     base_url := base_url self;
     _session_initialized := true;
     _available_tools := _available_tools self;
     _search_tool_name := _search_tool_name self;
     _input_schema := s |}.

(** ** Exceptions and effects *)

(** The exception classes the two tools tell apart; [PyException] is any
    other subclass of [Exception]. *)
Inductive exn :=
| HTTPStatusError (status_code : Z) (msg : string)
| RequestError (msg : string)
| ValueError (msg : string)
| RuntimeError (msg : string)
| PyException (msg : string).

(** [str(e)] *)
Definition str_exn (e : exn) : string :=
  match e with
  | HTTPStatusError _ msg | RequestError msg | ValueError msg
  | RuntimeError msg | PyException msg => msg
  end.

Inductive result (A : Type) :=
| Ok (a : A)
| Raise (e : exn).
Arguments Ok {A} a.
Arguments Raise {A} e.

(** The JSON-RPC payloads of the search tool. *)
Inductive rpc :=
| Initialize
| NotificationsInitialized
| ToolsList
| ToolsCall (name : option string) (arguments : gmap string value).

(** What reaches the network. *)
Inductive request :=
| HttpGet (url : string)
| HttpPost (url : string) (bearer : string) (payload : rpc).

Record http_response := {
  r_url : string;
  r_status_code : Z;
  r_content_type : option string;
  r_text : string
}.

(** A computation that reads and updates the tool instance [T], sends
    requests (the second component of the state lists the requests sent
    so far, oldest first) and returns or raises. *)
Definition M (T A : Type) : Type :=
  T * list request -> result A * (T * list request).

Module Eff.
Section Effects.

Context {T : Type}.

Definition ret {A} (a : A) : M T A := fun st => (Ok a, st).

Definition bind {A B} (c : M T A) (k : A -> M T B) : M T B :=
  fun st =>
    match c st with
    | (Ok a, st') => k a st'
    | (Raise e, st') => (Raise e, st')
    end.

Definition raise {A} (e : exn) : M T A := fun st => (Raise e, st).

(** [try: c] with [except ... as e: handler e] *)
Definition try_except {A} (c : M T A) (handler : exn -> M T A) : M T A :=
  fun st =>
    match c st with
    | (Ok a, st') => (Ok a, st')
    | (Raise e, st') => handler e st'
    end.

Definition get_self : M T T := fun st => (Ok (fst st), st).

Definition modify_self (f : T -> T) : M T unit :=
  fun st => (Ok tt, (f (fst st), snd st)).

Definition lift {A} (r : result A) : M T A := fun st => (r, st).

Section Network.

(** What httpx answers to a request, given the requests sent before
    it: a response, or the exception it raises. *)
Variable network : list request -> request -> result http_response.

Definition send (req : request) : M T http_response :=
  fun st => (network (snd st) req, (fst st, (snd st ++ [req])%list)).

(** [r.raise_for_status()] *)
Variable is_error_status : Z -> bool.
Variable status_message : http_response -> string.

Definition raise_for_status (r : http_response) : M T unit :=
  if is_error_status (r_status_code r)
  then raise (HTTPStatusError (r_status_code r) (status_message r))
  else ret tt.

End Network.

End Effects.
End Eff.

Notation "x <- c ;; k" := (Eff.bind c (fun x => k))
  (at level 100, c at next level, right associativity).
Notation "c ;;; k" := (Eff.bind c (fun _ => k))
  (at level 100, right associativity).

(** ** Regular-expression deletions used by [_strip_tags] *)

Module Re.

(** [re.sub(pattern, '', s)] for a pattern that matches no empty text:
    [match_at s] is the length of the match of the pattern at the start
    of [s], if there is one.  [skip] counts the characters of the
    current match still to be dropped. *)
Fixpoint sub_del (match_at : string -> option nat) (skip : nat) (s : string)
  : string :=
  match s with
  | EmptyString => EmptyString
  | String c rest =>
      match skip with
      | S k => sub_del match_at k rest
      | O =>
          match match_at s with
          | Some (S k) => sub_del match_at k rest
          | _ => String c (sub_del match_at 0 rest)
          end
      end
  end.

(** A literal matched under [re.I]. *)
Definition prefix_ci (lit s : string) : bool :=
  String.prefix lit (Str.ascii_lower (Str.take (String.length lit) s)).

(** Offset of the first occurrence of [lit] in [s], ignoring case. *)
Fixpoint find_ci (lit s : string) : option nat :=
  if prefix_ci lit s then Some O
  else match s with
       | EmptyString => None
       | String _ rest => option_map S (find_ci lit rest)
       end.

(** [open[\s\S]*?close] under [re.I]: the lazy star stops at the first
    [close] after [open]. *)
Definition block_match (open close s : string) : option nat :=
  if prefix_ci open s then
    match find_ci close (Str.drop (String.length open) s) with
    | Some j => Some (String.length open + j + String.length close)%nat
    | None => None
    end
  else None.

(** [<script[\s\S]*?</script>] and [<style[\s\S]*?</style>] *)
Definition script_match : string -> option nat :=
  block_match "<script" "</script>".
Definition style_match : string -> option nat :=
  block_match "<style" "</style>".

(** [<[^>]+>]: a ["<"], at least one character other than [">"], and
    the first [">"] after them. *)
Definition tag_match (s : string) : option nat :=
  match s with
  | String c rest =>
      if Ascii.eqb c "<" then
        match Str.index_char ">" rest with
        | Some (S j) => Some (S j + 2)%nat
        | _ => None
        end
      else None
  | EmptyString => None
  end.

End Re.

Section StripTags.

(** [html.unescape] of the standard library. *)
Variable unescape : string -> string.

Definition _strip_tags (text : string) : string :=
  let text := Re.sub_del Re.script_match 0 text in
  let text := Re.sub_del Re.style_match 0 text in
  let text := Re.sub_del Re.tag_match 0 text in
  Str.strip (unescape text).

End StripTags.

(** [html.unescape] on text whose character references are among
    [&lt;], [&gt;] and [&amp;], each closed by its semicolon.  The table
    of the named references of HTML 5 and the numeric references are not
    reproduced: this instance only serves concrete runs. *)
Module Html.

Definition references : list (string * ascii) :=
  [("&lt;", "<"%char); ("&gt;", ">"%char); ("&amp;", "&"%char)].

Fixpoint unescape_from (skip : nat) (s : string) : string :=
  match s with
  | EmptyString => EmptyString
  | String c rest =>
      match skip with
      | S k => unescape_from k rest
      | O =>
          match find (fun r => String.prefix (fst r) s) references with
          | Some (name, ch) =>
              String ch (unescape_from (String.length name - 1) rest)
          | None => String c (unescape_from 0 rest)
          end
      end
  end.

Definition unescape (s : string) : string :=
  if Str.has_char "&" s then unescape_from 0 s else s.

End Html.

(** ** URL validation *)

Module Url.

(** The two components of [urlparse(url)] that the tool reads. *)
Record parsed := { scheme : string; netloc : string }.

Definition is_alpha (c : ascii) : bool :=
  let n := nat_of_ascii c in
  ((Nat.leb 65 n && Nat.leb n 90) || (Nat.leb 97 n && Nat.leb n 122))%bool.

Definition is_digit (c : ascii) : bool :=
  let n := nat_of_ascii c in (Nat.leb 48 n && Nat.leb n 57)%bool.

(** [c in scheme_chars] *)
Definition scheme_char (c : ascii) : bool :=
  (is_alpha c || is_digit c || Ascii.eqb c "+" || Ascii.eqb c "-"
   || Ascii.eqb c ".")%bool.

Fixpoint all_chars (p : ascii -> bool) (s : string) : bool :=
  match s with
  | EmptyString => true
  | String c rest => p c && all_chars p rest
  end.

(** [url.lstrip(_WHATWG_C0_CONTROL_OR_SPACE)] *)
Fixpoint lstrip_c0 (s : string) : string :=
  match s with
  | EmptyString => EmptyString
  | String c rest => if Nat.leb (nat_of_ascii c) 32 then lstrip_c0 rest else s
  end.

(** Removal of tab, carriage return and line feed. *)
Fixpoint remove_unsafe (s : string) : string :=
  match s with
  | EmptyString => EmptyString
  | String c rest =>
      if (Ascii.eqb c "009" || Ascii.eqb c "013" || Ascii.eqb c "010")%bool
      then remove_unsafe rest else String c (remove_unsafe rest)
  end.

(** The scheme, if the text before the first [":"] is one, and what
    follows it. *)
Definition split_scheme (url : string) : string * string :=
  match Str.index_char ":" url, url with
  | Some (S i), String c0 _ =>
      if (is_alpha c0 && all_chars scheme_char (Str.take (S i) url))%bool
      then (Str.ascii_lower (Str.take (S i) url), Str.drop (S (S i)) url)
      else ("", url)
  | _, _ => ("", url)
  end.

(** [_splitnetloc(url, 2)]: the network location ends at the first of
    ["/"], ["?"] and ["#"]. *)
Fixpoint until_delim (s : string) : string :=
  match s with
  | EmptyString => EmptyString
  | String c rest =>
      if (Ascii.eqb c "/" || Ascii.eqb c "?" || Ascii.eqb c "#")%bool
      then EmptyString
      else String c (until_delim rest)
  end.

Section Parse.

(** The checks [_check_bracketed_host] and [_checknetloc] of the
    standard library on a network location: the message of the
    [ValueError] they raise, if they raise. *)
Variable netloc_checks : string -> option string.

(** [urlparse(url)] of CPython 3.12, for the scheme and the network
    location. *)
Definition urlparse (url : string) : result parsed :=
  let url := remove_unsafe (lstrip_c0 url) in
  let '(sch, url) := split_scheme url in
  match url with
  | String "/" (String "/" after) =>
      let nl := until_delim after in
      if negb (Bool.eqb (Str.has_char "[" nl) (Str.has_char "]" nl))
      then Raise (ValueError "Invalid IPv6 URL")
      else match netloc_checks nl with
           | Some msg => Raise (ValueError msg)
           | None => Ok {| scheme := sch; netloc := nl |}
           end
  | _ => Ok {| scheme := sch; netloc := "" |}
  end.

(** [p.scheme in ('http', 'https')] *)
Definition allowed_scheme (s : string) : bool :=
  (String.eqb s "http" || String.eqb s "https")%bool.

(** The message of the scheme error: [p.scheme or 'none'] inside. *)
Definition scheme_error (s : string) : string :=
  "Only http/https allowed, got '"
  +:+ (if Str.truthy s then s else "none") +:+ "'".

Definition _validate_url (url : string) : bool * string :=
  match urlparse url with
  | Ok p =>
      if negb (allowed_scheme (scheme p)) then (false, scheme_error (scheme p))
      else if negb (Str.truthy (netloc p)) then (false, "Missing domain")
      else (true, "")
  | Raise e => (false, str_exn e)
  end.

End Parse.

End Url.

(** ** The search tool *)

Section WebSearch.

(** [str.lower] *)
Variable lower : string -> string.

(** [name.lower() == "query" or "query" in name.lower()] *)
Definition query_like (name : string) : bool :=
  String.eqb (lower name) "query" || Str.contains "query" (lower name).

Definition count_keywords : list string := ["count"; "num"; "limit"; "size"].

(** [any(keyword in name.lower() for keyword in [...])] *)
Definition count_like (name : string) : bool :=
  existsb (fun keyword => Str.contains keyword (lower name)) count_keywords.

(** [count or self.max_results]: [None] and [0] are the falsy counts. *)
Definition count_or (count : option Z) (default_count : Z) : Z :=
  match count with
  | Some c => if c =? 0 then default_count else c
  | None => default_count
  end.

(** [min(max(count or self.max_results, 1), 10)] *)
Definition count_arg_value (self : search_tool) (count : option Z) : Z :=
  Z.min (Z.max (count_or count (max_results self)) 1) 10.

(** [self._input_schema.get("properties", {}).keys()] *)
Definition schema_props_keys (self : search_tool) : list string :=
  map fst (properties (_input_schema self)).

(** Lines 176-195 of [_build_arguments]: the search for the query key.
    A [for] loop left by [break] at its first hit is [find]. *)
Definition assign_query (self : search_tool) (query : string)
    (arguments : gmap string value) : gmap string value :=
  match find query_like (schema_props_keys self) with
  | Some param_name => <[param_name := VStr query]> arguments
  | None =>
      match find query_like (required (_input_schema self)) with
      | Some field => <[field := VStr query]> arguments
      | None => <["query" := VStr query]> arguments
      end
  end.

(** Lines 197-218: the search for the count key. *)
Definition assign_count (self : search_tool) (count : option Z)
    (arguments : gmap string value) : gmap string value :=
  match find count_like (schema_props_keys self) with
  | Some param_name =>
      <[param_name := VInt (count_arg_value self count)]> arguments
  | None =>
      match find count_like (required (_input_schema self)) with
      | Some field => <[field := VInt (count_arg_value self count)]> arguments
      | None => arguments
      end
  end.

Definition _build_arguments (self : search_tool) (query : string)
    (count : option Z) : gmap string value :=
  assign_count self count (assign_query self query ∅).

(** [os.environ] *)
Variable environ : gmap string string.

(** The [api_key] property:
    [self._init_api_key or os.environ.get("DASHSCOPE_API_KEY", "")]. *)
Definition api_key (self : search_tool) : string :=
  if Str.truthy_opt (_init_api_key self)
  then default "" (_init_api_key self)
  else default "" (environ !! "DASHSCOPE_API_KEY").

Variable network : list request -> request -> result http_response.
Variable is_error_status : Z -> bool.
Variable status_message : http_response -> string.

(** [response.json()], read as a reply of the protocol. *)
Variable response_json : http_response -> result rpc_reply.

(** [json.loads(text)] followed by [.get("pages", [])]; [None] when
    the text is not JSON ([json.JSONDecodeError]). *)
Variable json_loads_pages : string -> option (list page).

Definition post (self : search_tool) (payload : rpc)
  : M search_tool http_response :=
  Eff.send network (HttpPost (base_url self) (api_key self) payload).

(** ["search" in name.lower() or "web" in name.lower()] *)
Definition search_like (name : string) : bool :=
  Str.contains "search" (lower name) || Str.contains "web" (lower name).

(** Lines 141-147: the loop over the discovered tools.  A tool without
    a name is stored under [None] before [name.lower()] raises. *)
Fixpoint discover (tools_list : list tool) : M search_tool unit :=
  match tools_list with
  | [] => Eff.ret tt
  | t :: rest =>
      let name := tool_name t in
      Eff.modify_self
        (fun self => set_available_tools (Dict.set name t (_available_tools self)) self) ;;;
      match name with
      | None =>
          Eff.raise (PyException "'NoneType' object has no attribute 'lower'")
      | Some n =>
          (if search_like n
           then Eff.modify_self (set_search_tool_name name)
           else Eff.ret tt) ;;;
          discover rest
      end
  end.

(** One turn of the loop of [discover] on a tool that has a name. *)
Definition discover_step (self : search_tool) (t : tool) : search_tool :=
  let self :=
    set_available_tools (Dict.set (tool_name t) t (_available_tools self)) self in
  match tool_name t with
  | Some n => if search_like n then set_search_tool_name (Some n) self else self
  | None => self
  end.

Definition named (t : tool) : Prop := exists n, tool_name t = Some n.

Definition named_unlike (t : tool) : Prop :=
  exists n, tool_name t = Some n /\ search_like n = false.

(** Lines 149-160: the fall-back, the failure on no tool, and the
    caching of the selected schema. *)
Definition select_tool : M search_tool unit :=
  self <- Eff.get_self ;;
  (if negb (Str.truthy_opt (_search_tool_name self))
      && negb (bool_decide (_available_tools self = []))
   then Eff.modify_self
          (fun self =>
             match Dict.first_key (_available_tools self) with
             | Some k => set_search_tool_name k self
             | None => self
             end)
   else Eff.ret tt) ;;;
  self <- Eff.get_self ;;
  if negb (Str.truthy_opt (_search_tool_name self))
  then Eff.raise (ValueError "No web search tool found in the available tools")
  else
    match Dict.get (_search_tool_name self) (_available_tools self) with
    | None => Eff.raise (PyException "KeyError")
    | Some selected_tool =>
        Eff.modify_self
          (set_ready (default empty_schema (tool_inputSchema selected_tool)))
    end.

Definition tools_of (reply : rpc_reply) : list tool :=
  match reply with
  | ReplyTools tools => tools
  | _ => []
  end.

Definition _ensure_session_initialized : M search_tool unit :=
  self <- Eff.get_self ;;
  if _session_initialized self then Eff.ret tt
  else if negb (Str.truthy (api_key self)) then
    Eff.raise (ValueError
      "DashScope API key not configured. Set DASHSCOPE_API_KEY in your environment variables.")
  else
    Eff.try_except
      (init_response <- post self Initialize ;;
       Eff.raise_for_status is_error_status status_message init_response ;;;
       post self NotificationsInitialized ;;;
       tools_response <- post self ToolsList ;;
       Eff.raise_for_status is_error_status status_message tools_response ;;;
       tools_data <- Eff.lift (response_json tools_response) ;;
       discover (tools_of tools_data) ;;;
       select_tool)
      (fun e =>
         match e with
         | HTTPStatusError code _ =>
             Eff.raise (RuntimeError
               ("HTTP error " +:+ pretty code +:+ ": Failed to initialize MCP session"))
         | RequestError msg =>
             Eff.raise (RuntimeError ("Request error during initialization: " +:+ msg))
         | _ =>
             Eff.raise (RuntimeError ("Error initializing MCP session: " +:+ str_exn e))
         end).

Definition content_of (reply : rpc_reply) : list content_block :=
  match reply with
  | ReplyContent content => content
  | _ => []
  end.

(** Lines 263-267: the text of the first block of type ["text"]. *)
Definition text_content_of (content_blocks : list content_block)
  : option string :=
  match find (fun block => bool_decide (block_type block = Some "text"))
             content_blocks with
  | Some block => block_text block
  | None => None
  end.

Definition nl : string := String "010" EmptyString.

(** Lines 282-290: the four lines of each page, numbered from [i]. *)
Fixpoint format_pages (i : nat) (pages : list page) : list string :=
  match pages with
  | [] => []
  | item :: rest =>
      (pretty i +:+ ". " +:+ default "No Title" (page_title item))
      :: ("   URL: " +:+ default "" (page_url item))
      :: ("   Snippet: " +:+ default "" (page_snippet item))
      :: "" :: format_pages (S i) rest
  end.

Definition no_results (query : string) : string :=
  "No search results found for query: " +:+ query.

(** [WebSearchTool.execute] *)
Definition execute (query : string) (count : option Z)
  : M search_tool string :=
  self <- Eff.get_self ;;
  if negb (Str.truthy (api_key self)) then
    Eff.ret "Error: DashScope API key not configured. Set DASHSCOPE_API_KEY in your environment variables."
  else
    Eff.try_except
      (_ensure_session_initialized ;;;
       self <- Eff.get_self ;;
       let arguments := _build_arguments self query count in
       search_response <-
         post self (ToolsCall (_search_tool_name self) arguments) ;;
       Eff.raise_for_status is_error_status status_message search_response ;;;
       result_data <- Eff.lift (response_json search_response) ;;
       match text_content_of (content_of result_data) with
       | None => Eff.ret (no_results query)
       | Some text_content =>
           if negb (Str.truthy text_content) then Eff.ret (no_results query)
           else
             match json_loads_pages text_content with
             | None =>
                 Eff.ret ("Error parsing search results: Could not decode JSON response"
                          +:+ nl +:+ "Raw response: " +:+ text_content)
             | Some [] => Eff.ret (no_results query)
             | Some pages =>
                 Eff.ret (Str.strip (Str.join_lines
                   (("Results for: " +:+ query +:+ nl) :: format_pages 1 pages)))
             end
       end)
      (fun e =>
         match e with
         | HTTPStatusError code _ =>
             Eff.ret ("HTTP error " +:+ pretty code +:+ ": Failed to search the web")
         | RequestError msg => Eff.ret ("Request error: " +:+ msg)
         | _ => Eff.ret ("Error: " +:+ str_exn e)
         end).

End WebSearch.

(** ** The fetch tool *)

(** The values of the object that [json.dumps] serialises; the object
    itself lists its entries in the order of the source. *)
Inductive json :=
| JStr (s : string)
| JInt (n : Z)
| JBool (b : bool).

Record fetch_tool := { max_chars : Z }.

Section WebFetch.

Variable lower : string -> string.
Variable unescape : string -> string.
Variable netloc_checks : string -> option string.
Variable network : list request -> request -> result http_response.
Variable is_error_status : Z -> bool.
Variable status_message : http_response -> string.

(** [json.dumps(r.json(), indent=2, ensure_ascii=False)] *)
Variable json_pretty : http_response -> result string.

(** [Document(html).summary()] and [Document(html).title()] of
    readability. *)
Variable doc_summary : string -> result string.
Variable doc_title : string -> result string.

(** The method [_to_markdown], which no property below looks into. *)
Variable _to_markdown : string -> string.

(** [maxChars or self.max_chars] *)
Definition effective_max_chars (self : fetch_tool) (maxChars : option Z) : Z :=
  match maxChars with
  | Some m => if m =? 0 then max_chars self else m
  | None => max_chars self
  end.

(** [r.text[:256].lower().startswith(("<!doctype", "<html"))] *)
Definition looks_like_html (text : string) : bool :=
  let head := lower (Str.slice_to 256 text) in
  String.prefix "<!doctype" head || String.prefix "<html" head.

(** Lines 348-351.  [doc.title()] is called a second time when its
    first value is truthy; it is a function of the document. *)
Definition readable (html extractMode : string) : result string :=
  match doc_summary html with
  | Raise e => Raise e
  | Ok summary =>
      let content :=
        if String.eqb extractMode "markdown" then _to_markdown summary
        else _strip_tags unescape summary in
      match doc_title html with
      | Raise e => Raise e
      | Ok title =>
          if Str.truthy title
          then Ok ("# " +:+ title +:+ nl +:+ nl +:+ content)
          else Ok content
      end
  end.

(** Lines 341-353: the text and the extractor tag. *)
Definition extract (r : http_response) (extractMode : string)
  : result (string * string) :=
  let ctype := default "" (r_content_type r) in
  if Str.contains "application/json" ctype then
    match json_pretty r with
    | Ok text => Ok (text, "json")
    | Raise e => Raise e
    end
  else if Str.contains "text/html" ctype || looks_like_html (r_text r) then
    match readable (r_text r) extractMode with
    | Ok text => Ok (text, "readability")
    | Raise e => Raise e
    end
  else Ok (r_text r, "raw").

Definition error_object (error url : string) : list (string * json) :=
  [("error", JStr error); ("url", JStr url)].

(** Lines 355-360: truncation and the result object. *)
Definition result_object (url : string) (r : http_response)
    (extractor text : string) (max_chars : Z) : list (string * json) :=
  let truncated := Str.len text >? max_chars in
  let text := if truncated then Str.slice_to max_chars text else text in
  [("url", JStr url); ("finalUrl", JStr (r_url r));
   ("status", JInt (r_status_code r)); ("extractor", JStr extractor);
   ("truncated", JBool truncated); ("length", JInt (Str.len text));
   ("text", JStr text)].

(** [WebFetchTool.execute] (the search tool has the name [execute]).
    The import of readability that opens the method is taken to
    succeed, and the exceptions are the subclasses of [Exception], which
    is what [except Exception] catches. *)
Definition fetch_execute (self : fetch_tool) (url extractMode : string)
    (maxChars : option Z) : M fetch_tool (list (string * json)) :=
  let max_chars := effective_max_chars self maxChars in
  let '(is_valid, error_msg) := Url._validate_url netloc_checks url in
  if negb is_valid then
    Eff.ret (error_object ("URL validation failed: " +:+ error_msg) url)
  else
    Eff.try_except
      (r <- Eff.send network (HttpGet url) ;;
       Eff.raise_for_status is_error_status status_message r ;;;
       extracted <- Eff.lift (extract r extractMode) ;;
       let '(text, extractor) := extracted in
       Eff.ret (result_object url r extractor text max_chars))
      (fun e => Eff.ret (error_object (str_exn e) url)).

(** What [fetch_execute] returns for a URL that passes validation, by
    the outcome of each step inside the [try]. *)
Definition after_validation (self : fetch_tool) (url extractMode : string)
    (maxChars : option Z) (sent : list request) : list (string * json) :=
  match network sent (HttpGet url) with
  | Raise e => error_object (str_exn e) url
  | Ok r =>
      if is_error_status (r_status_code r)
      then error_object (status_message r) url
      else
        match extract r extractMode with
        | Raise e => error_object (str_exn e) url
        | Ok (text, extractor) =>
            result_object url r extractor text (effective_max_chars self maxChars)
        end
  end.

End WebFetch.

(** ** Whitespace normalisation *)

Module Norm.

(** A character of the class [[ \t]]. *)
Definition is_blank (c : ascii) : bool :=
  (Ascii.eqb c " " || Ascii.eqb c "009")%bool.

(** [re.sub(r'[ \t]+', ' ', s)]: every run of spaces and tabs becomes one
    space.  [in_run] tells that the character before was of the run. *)
Fixpoint collapse_blanks (in_run : bool) (s : string) : string :=
  match s with
  | EmptyString => EmptyString
  | String c rest =>
      if is_blank c then
        if in_run then collapse_blanks true rest
        else String " " (collapse_blanks true rest)
      else String c (collapse_blanks false rest)
  end.

(** [re.sub(r'\n{3,}', '\n\n', s)]: of a run of three line feeds or
    more, two are kept; shorter runs stay.  [seen] counts the line feeds
    of the run so far. *)
Fixpoint squeeze_newlines (seen : nat) (s : string) : string :=
  match s with
  | EmptyString => EmptyString
  | String c rest =>
      if Ascii.eqb c "010" then
        if Nat.ltb seen 2 then String c (squeeze_newlines (S seen) rest)
        else squeeze_newlines (S seen) rest
      else String c (squeeze_newlines 0 rest)
  end.

End Norm.

Definition _normalize (text : string) : string :=
  let text := Norm.collapse_blanks false text in
  Str.strip (Norm.squeeze_newlines 0 text).

(** No run of spaces and tabs but a single space; [after_blank] tells
    that the character before was one. *)
Fixpoint blanks_ok (after_blank : bool) (s : string) : Prop :=
  match s with
  | EmptyString => True
  | String c rest =>
      if Norm.is_blank c
      then c = " "%char /\ after_blank = false /\ blanks_ok true rest
      else blanks_ok false rest
  end.

(** No run of three line feeds; [seen] counts those just before [s]. *)
Fixpoint lines_ok (seen : nat) (s : string) : Prop :=
  match s with
  | EmptyString => True
  | String c rest =>
      if Ascii.eqb c "010"
      then (seen < 2)%nat /\ lines_ok (S seen) rest
      else lines_ok 0 rest
  end.

(** Three line feeds. *)
Definition three_newlines : string :=
  String "010" (String "010" (String "010" EmptyString)).

(** ** Vocabulary of the specification *)

(** [k] is the first element of [l], in the order of [l], that satisfies
    [p]; and no element of [l] satisfies [p]. *)
Definition first_such (p : string -> bool) (l : list string) (k : string) : Prop :=
  exists before after,
    l = (before ++ k :: after)%list /\ existsb p before = false /\ p k = true.

Definition none_such (p : string -> bool) (l : list string) : Prop :=
  existsb p l = false.

(** The three-stage rule of the specification for the query key. *)
Definition resolves_query (lower : string -> string) (s : schema) (k : string)
  : Prop :=
  first_such (query_like lower) (map fst (properties s)) k
  \/ (none_such (query_like lower) (map fst (properties s))
      /\ first_such (query_like lower) (required s) k)
  \/ (none_such (query_like lower) (map fst (properties s))
      /\ none_such (query_like lower) (required s)
      /\ k = "query").

(** The two-stage rule of the specification for the count key. *)
Definition resolves_count (lower : string -> string) (s : schema) (k : string)
  : Prop :=
  first_such (count_like lower) (map fst (properties s)) k
  \/ (none_such (count_like lower) (map fst (properties s))
      /\ first_such (count_like lower) (required s) k).

Definition clamp (x lo hi : Z) : Z := Z.min (Z.max x lo) hi.

(** [clamp(count ?? defaultMaxResults, 1, 10)] in the words of the
    specification: only a missing count is replaced by the default. *)
Definition spec_count_value (count : option Z) (default_max_results : Z) : Z :=
  clamp (default default_max_results count) 1 10.

(** [tool._input_schema = s] *)
Definition set_input_schema (s : schema) (self : search_tool) : search_tool :=
  {| _init_api_key := _init_api_key self;
     max_results := max_results self;
     base_url := base_url self;
     _session_initialized := _session_initialized self;
     _available_tools := _available_tools self;
     _search_tool_name := _search_tool_name self;
     _input_schema := s |}.

Definition string_param (d : string) : param_info :=
  {| p_type := "string"; p_description := d |}.
Definition integer_param (d : string) : param_info :=
  {| p_type := "integer"; p_description := d |}.

(** The schemas of the test suite. *)
Definition schema_query_count : schema :=
  {| properties := [("query", string_param "Search query");
                    ("count", integer_param "Number of results")];
     required := ["query"] |}.

Definition schema_search_query : schema :=
  {| properties := [("search_query", string_param "Search query");
                    ("result_count", integer_param "Number of results")];
     required := ["search_query"] |}.

Definition schema_unknown : schema :=
  {| properties := [("unknown_field", string_param "Some unknown field");
                    ("another_field", integer_param "Another field")];
     required := ["unknown_field"] |}.

(** [WebSearchTool()] with [_input_schema] set to [s]. *)
Definition tool_with (s : schema) : search_tool :=
  set_input_schema s (new_search_tool None 10).

(** The pattern matches at no position of [s]. *)
Fixpoint free (m : string -> option nat) (s : string) : Prop :=
  match s with
  | EmptyString => True
  | String _ rest => m s = None /\ free m rest
  end.

(** Text that is empty or starts with a character that is no space. *)
Definition starts_clean (s : string) : Prop :=
  match s with
  | EmptyString => True
  | String c _ => Str.is_space c = false
  end.

(** ** Vocabulary for the session *)

(** What the loop of [discover] has done when it stops: the tools up to
    the first one without a name have gone through it.  The flag tells
    whether the loop reached the end of the list. *)
Fixpoint discovered (lower : string -> string) (tools : list tool)
    (self : search_tool) : bool * search_tool :=
  match tools with
  | [] => (true, self)
  | t :: rest =>
      match tool_name t with
      | Some _ => discovered lower rest (discover_step lower self t)
      | None => (false, discover_step lower self t)
      end
  end.

(** The attributes that are set by the constructor only. *)
Definition same_configuration (a b : search_tool) : Prop :=
  _init_api_key a = _init_api_key b
  /\ max_results a = max_results b
  /\ base_url a = base_url b.

(** The three requests of a handshake, in order. *)
Definition handshake_posts (url key : string) : list request :=
  [HttpPost url key Initialize;
   HttpPost url key NotificationsInitialized;
   HttpPost url key ToolsList].

(** A session that is ready: a truthy selection, whose descriptor is
    stored and whose input schema is cached. *)
Definition ready (self : search_tool) : Prop :=
  _session_initialized self = true
  /\ Str.truthy_opt (_search_tool_name self) = true
  /\ exists selected,
       Dict.get (_search_tool_name self) (_available_tools self) = Some selected
       /\ _input_schema self = default empty_schema (tool_inputSchema selected).

Definition is_runtime_error (e : exn) : Prop := exists msg, e = RuntimeError msg.

(** ** Concrete instances *)

Definition tool_named (n : string) (s : schema) : tool :=
  {| tool_name := Some n; tool_inputSchema := Some s |}.

(** A network that answers every request with status 200. *)
Definition network_ok (body : string) (sent : list request) (req : request)
  : result http_response :=
  Ok {| r_url := match req with HttpGet u | HttpPost u _ _ => u end;
        r_status_code := 200;
        r_content_type := Some "text/plain";
        r_text := body |}.

Definition http_error (status : Z) : bool := negb ((200 <=? status) && (status <=? 299)).

(** A server that answers every request with status 200, the content
    type [ctype] and the body [body]. *)
Definition network_page (ctype body : string) (sent : list request)
    (req : request) : result http_response :=
  Ok {| r_url := match req with HttpGet u | HttpPost u _ _ => u end;
        r_status_code := 200;
        r_content_type := Some ctype;
        r_text := body |}.

(** [s * n] *)
Fixpoint repeat_string (s : string) (n : nat) : string :=
  match n with
  | O => EmptyString
  | S k => s +:+ repeat_string s k
  end.

Definition default_fetch_tool : fetch_tool := {| max_chars := 50000 |}.

(** The fetch tool over [network_page], with a readability that returns
    the document as its summary and no title. *)
Definition fetch_page (ctype body : string) (self : fetch_tool)
    (url extractMode : string) (maxChars : option Z)
  : M fetch_tool (list (string * json)) :=
  fetch_execute Str.ascii_lower Html.unescape (fun _ => None)
    (network_page ctype body) http_error (fun _ => "status error")
    (fun r => Ok (r_text r)) (fun html => Ok html) (fun _ => Ok "")
    (_strip_tags Html.unescape) self url extractMode maxChars.

(** An MCP server for concrete runs: every answer has status 200, and
    its body names the method it answers. *)
Definition mcp_network (sent : list request) (req : request)
  : result http_response :=
  Ok {| r_url := match req with HttpGet u | HttpPost u _ _ => u end;
        r_status_code := 200;
        r_content_type := Some "application/json";
        r_text := match req with
                  | HttpPost _ _ ToolsList => "tools/list"
                  | HttpPost _ _ (ToolsCall _ _) => "tools/call"
                  | _ => ""
                  end |}.

(** Its replies, decoded: the list [tools] for [tools/list], the blocks
    [content] for [tools/call]. *)
Definition mcp_json (tools : list tool) (content : list content_block)
    (r : http_response) : result rpc_reply :=
  if String.eqb (r_text r) "tools/list" then Ok (ReplyTools tools)
  else if String.eqb (r_text r) "tools/call" then Ok (ReplyContent content)
  else Ok ReplyOther.

(** A server that refuses every request with status 503. *)
Definition network_unavailable (sent : list request) (req : request)
  : result http_response :=
  Ok {| r_url := match req with HttpGet u | HttpPost u _ _ => u end;
        r_status_code := 503;
        r_content_type := None;
        r_text := "" |}.

Definition keyed_tool : search_tool := new_search_tool (Some "sk-test") 10.

(** [keyed_tool] after a handshake that selected "web_search". *)
Definition ready_tool : search_tool :=
  set_ready schema_query_count
    (set_search_tool_name (Some "web_search")
       (set_available_tools
          [(Some "web_search", tool_named "web_search" schema_query_count)]
          keyed_tool)).

Definition text_block (text : string) : content_block :=
  {| block_type := Some "text"; block_text := Some text |}.

Definition image_block : content_block :=
  {| block_type := Some "image"; block_text := None |}.

Definition page_of (title url snippet : string) : page :=
  {| page_title := Some title; page_url := Some url; page_snippet := Some snippet |}.

(** A schema whose only property serves as query and as count. *)
Definition schema_query_limit : schema :=
  {| properties := [("query_limit", string_param "Query and limit")];
     required := [] |}.

(** * Properties *)

(** ** Argument resolution *)

Lemma find_first_such (p : string -> bool) (l : list string) (k : string) :
  find p l = Some k -> first_such p l k.
Proof.
  induction l as [|x l IH]; simpl; [discriminate|].
  destruct (p x) eqn:Hx.
  - intros [= ->]. exists [], l. auto.
  - intros Hf. destruct (IH Hf) as (before & after & -> & Hb & Hk).
    exists (x :: before), after. simpl. rewrite Hx. auto.
Qed.

Lemma find_none_such (p : string -> bool) (l : list string) :
  find p l = None -> none_such p l.
Proof.
  unfold none_such. induction l as [|x l IH]; simpl; [reflexivity|].
  destruct (p x); [discriminate|]. exact IH.
Qed.

Lemma none_such_find (p : string -> bool) (l : list string) :
  none_such p l -> find p l = None.
Proof.
  unfold none_such. induction l as [|x l IH]; simpl; [reflexivity|].
  destruct (p x); [discriminate|]. exact IH.
Qed.

Lemma first_such_holds (p : string -> bool) (l : list string) (k : string) :
  first_such p l k -> p k = true.
Proof. intros (? & ? & _ & _ & H). exact H. Qed.

Lemma first_such_find (p : string -> bool) (l : list string) (k : string) :
  first_such p l k -> find p l = Some k.
Proof.
  intros (before & after & -> & Hb & Hk).
  induction before as [|x before IH]; simpl in *; [now rewrite Hk|].
  apply orb_false_elim in Hb as [-> Hb]. auto.
Qed.

Lemma first_such_exists (p : string -> bool) (l : list string) (k : string) :
  first_such p l k -> existsb p l = true.
Proof.
  intros (before & after & -> & _ & Hk).
  rewrite existsb_app. simpl. rewrite Hk. apply orb_true_iff. right. reflexivity.
Qed.

Section ArgumentFacts.

Variable lower : string -> string.

(** The query stage writes exactly one entry, under the key that the
    three-stage rule selects. *)
Lemma assign_query_resolves (self : search_tool) (query : string) :
  exists k, assign_query lower self query ∅ = {[ k := VStr query ]}
            /\ resolves_query lower (_input_schema self) k.
Proof.
  unfold assign_query, resolves_query, schema_props_keys.
  destruct (find _ (map fst _)) as [k|] eqn:Hp.
  - exists k. split; [apply insert_empty|]. left. now apply find_first_such.
  - apply find_none_such in Hp.
    destruct (find _ (required _)) as [k|] eqn:Hr.
    + exists k. split; [apply insert_empty|]. right; left.
      split; [exact Hp|]. now apply find_first_such.
    + exists "query". split; [apply insert_empty|]. right; right.
      split; [exact Hp|]. split; [now apply find_none_such|reflexivity].
Qed.

(** The count stage writes at most one entry: under a count-like key,
    the clamped value. *)
Lemma assign_count_cases (self : search_tool) (count : option Z)
    (arguments : gmap string value) :
  (exists k, resolves_count lower (_input_schema self) k
             /\ assign_count lower self count arguments
                = <[ k := VInt (count_arg_value self count) ]> arguments)
  \/ (none_such (count_like lower) (schema_props_keys self)
      /\ none_such (count_like lower) (required (_input_schema self))
      /\ assign_count lower self count arguments = arguments).
Proof.
  unfold assign_count, resolves_count, schema_props_keys.
  destruct (find _ (map fst _)) as [k|] eqn:Hp.
  - left. exists k. split; [|reflexivity]. left. now apply find_first_such.
  - apply find_none_such in Hp.
    destruct (find _ (required _)) as [k|] eqn:Hr.
    + left. exists k. split; [|reflexivity]. right.
      split; [exact Hp|]. now apply find_first_such.
    + right. split; [exact Hp|]. split; [now apply find_none_such|reflexivity].
Qed.

(** The two-stage rule selects one key. *)
Lemma resolves_count_unique (s : schema) (k1 k2 : string) :
  resolves_count lower s k1 -> resolves_count lower s k2 -> k1 = k2.
Proof.
  unfold resolves_count, none_such.
  intros [H1|[N1 H1]] [H2|[N2 H2]];
    try (apply first_such_find in H1; apply first_such_find in H2; congruence).
  - apply first_such_exists in H1. congruence.
  - apply first_such_exists in H2. congruence.
Qed.

Lemma resolves_count_like (s : schema) (k : string) :
  resolves_count lower s k -> count_like lower k = true.
Proof.
  intros [H|[_ H]]; exact (first_such_holds _ _ _ H).
Qed.

(** Away from zero the value sent is the clamp of the specification. *)
Lemma count_arg_value_spec (self : search_tool) (count : option Z) :
  count <> Some 0 ->
  count_arg_value self count = spec_count_value count (max_results self).
Proof.
  intros Hc. unfold count_arg_value, spec_count_value, clamp, count_or.
  destruct count as [c|]; simpl; [|reflexivity].
  destruct (Z.eqb_spec c 0) as [->|_]; [congruence|reflexivity].
Qed.

Lemma count_arg_value_range (self : search_tool) (count : option Z) :
  1 <= count_arg_value self count <= 10.
Proof. unfold count_arg_value. lia. Qed.

End ArgumentFacts.

(** C1.  The query stage of [_build_arguments] gives the caller's query
    string to one key [k]: the first key of the schema's properties, in
    declared order, whose lowercase form equals or contains ["query"];
    failing that, the first such entry of the required list; failing
    that, the literal ["query"].  The object built keeps that entry,
    except when the count stage resolves to the same key and writes the
    count over it.  For the schema with properties [search_query] and
    [result_count] and inputs ("test query", 3), the object built maps
    [search_query] to "test query" and [result_count] to 3. *)
Theorem C1_query_field_resolution :
  (forall lower self query count,
      exists k,
        resolves_query lower (_input_schema self) k
        /\ assign_query lower self query ∅ = {[ k := VStr query ]}
        /\ (_build_arguments lower self query count !! k = Some (VStr query)
            \/ (resolves_count lower (_input_schema self) k
                /\ _build_arguments lower self query count !! k
                   = Some (VInt (count_arg_value self count)))))
  /\ _build_arguments Str.ascii_lower (tool_with schema_search_query)
       "test query" (Some 3)
     = <[ "result_count" := VInt 3 ]> {[ "search_query" := VStr "test query" ]}.
Proof.
  split; [|vm_compute; reflexivity].
  intros lower self query count.
  destruct (assign_query_resolves lower self query) as (k & Hk & Hres).
  exists k. split; [exact Hres|]. split; [exact Hk|].
  unfold _build_arguments. rewrite Hk.
  destruct (assign_count_cases lower self count {[ k := VStr query ]})
    as [(kc & Hkc & ->)|(_ & _ & ->)].
  - destruct (decide (kc = k)) as [->|Hne].
    + right. split; [exact Hkc|]. apply lookup_insert_eq.
    + left. rewrite lookup_insert_ne by exact Hne. apply lookup_singleton_eq.
  - left. apply lookup_singleton_eq.
Qed.

(** The entry of the query is lost when one key serves both stages. *)
Example query_overwritten_by_count :
  _build_arguments Str.ascii_lower
    (tool_with {| properties := [("query_limit", string_param "")];
                  required := [] |})
    "test query" (Some 3)
  = {[ "query_limit" := VInt 3 ]}.
Proof. vm_compute. reflexivity. Qed.

(** C2.  With a count-like field in the schema and the default
    [max_results] of 10, a count of 0 is sent as 10: [count or
    self.max_results] takes 0 for a missing count, where the clamp of
    the specification gives [clamp(0, 1, 10) = 1]. *)
Theorem C2_zero_count_sent_as_default :
  _build_arguments Str.ascii_lower (tool_with schema_query_count)
    "test query" (Some 0) !! "count" = Some (VInt 10)
  /\ spec_count_value (Some 0) 10 = 1.
Proof. split; vm_compute; reflexivity. Qed.

(** Every other count, and a missing one, is sent as the specification
    says, under the key that the two-stage rule selects. *)
Lemma count_field_value (lower : string -> string) (self : search_tool)
    (query : string) (count : option Z) (k : string) :
  count <> Some 0 ->
  resolves_count lower (_input_schema self) k ->
  _build_arguments lower self query count !! k
  = Some (VInt (spec_count_value count (max_results self))).
Proof.
  intros Hc Hk. rewrite <- (count_arg_value_spec self count Hc).
  unfold _build_arguments.
  destruct (assign_count_cases lower self count (assign_query lower self query ∅))
    as [(kc & Hkc & ->)|(Hp & Hr & _)].
  - rewrite (resolves_count_unique lower _ _ _ Hkc Hk). apply lookup_insert_eq.
  - exfalso. destruct Hk as [H|[_ H]].
    + apply first_such_exists in H. unfold none_such, schema_props_keys in Hp.
      congruence.
    + apply first_such_exists in H. unfold none_such in Hr. congruence.
Qed.

(** C3.  When no properties key and no required entry is count-like,
    the count stage adds nothing: the object built is the single entry
    of the query stage, under the key that the three-stage rule
    selects. *)
Theorem C3_no_count_field (lower : string -> string) (self : search_tool)
    (query : string) (count : option Z) :
  existsb (count_like lower) (schema_props_keys self) = false ->
  existsb (count_like lower) (required (_input_schema self)) = false ->
  _build_arguments lower self query count = assign_query lower self query ∅
  /\ exists k, resolves_query lower (_input_schema self) k
               /\ _build_arguments lower self query count = {[ k := VStr query ]}.
Proof.
  intros Hp Hr.
  assert (_build_arguments lower self query count
          = assign_query lower self query ∅) as E.
  { unfold _build_arguments, assign_count.
    rewrite (none_such_find _ _ Hp), (none_such_find _ _ Hr). reflexivity. }
  split; [exact E|]. rewrite E.
  destruct (assign_query_resolves lower self query) as (k & Hk & Hres).
  exists k. split; assumption.
Qed.

(** For the schema with properties [unknown_field] and [another_field]
    and inputs ("test query", 2), the object built is exactly
    [{query: "test query"}]. *)
Lemma C3_unknown_fields :
  _build_arguments Str.ascii_lower (tool_with schema_unknown) "test query" (Some 2)
  = {[ "query" := VStr "test query" ]}.
Proof.
  rewrite (proj1 (C3_no_count_field Str.ascii_lower (tool_with schema_unknown)
                    "test query" (Some 2) eq_refl eq_refl)).
  vm_compute. reflexivity.
Defined.

(** ** Operation discovery *)

Module DictFacts.
Section DictFacts.

Context {K V : Type} `{EqDecision K}.

Lemma get_set_eq (k : K) (v : V) (d : list (K * V)) :
  Dict.get k (Dict.set k v d) = Some v.
Proof.
  induction d as [|[k' v'] d IH]; simpl.
  - now rewrite decide_True.
  - destruct (decide (k = k')) as [->|Hne]; simpl.
    + now rewrite decide_True.
    + now rewrite decide_False.
Qed.

Lemma get_set_ne (k k' : K) (v : V) (d : list (K * V)) :
  k <> k' -> Dict.get k' (Dict.set k v d) = Dict.get k' d.
Proof.
  intros Hne. induction d as [|[k0 v0] d IH]; simpl.
  - now rewrite decide_False by congruence.
  - destruct (decide (k = k0)) as [->|Hk]; simpl.
    + now rewrite !decide_False by congruence.
    + destruct (decide (k' = k0)); [reflexivity|exact IH].
Qed.

Lemma set_not_empty (k : K) (v : V) (d : list (K * V)) : Dict.set k v d <> [].
Proof. destruct d as [|[k' v'] d]; simpl; [|destruct (decide _)]; discriminate. Qed.

(** Assigning to a dict that is not empty keeps its first key. *)
Lemma first_key_set (k : K) (v : V) (d : list (K * V)) :
  d <> [] -> Dict.first_key (Dict.set k v d) = Dict.first_key d.
Proof.
  destruct d as [|[k' v'] d]; [congruence|]. intros _. simpl.
  destruct (decide (k = k')); reflexivity.
Qed.

End DictFacts.
End DictFacts.

Section DiscoveryFacts.

Variable lower : string -> string.

Lemma discover_named (tools : list tool) :
  Forall named tools ->
  forall self sent,
    discover lower tools (self, sent)
    = (Ok tt, (fold_left (discover_step lower) tools self, sent)).
Proof.
  induction 1 as [|t tools [n Hn] _ IH]; intros self sent; [reflexivity|].
  cbn [discover fold_left]. unfold discover_step at 2. rewrite Hn.
  unfold Eff.bind at 1. unfold Eff.modify_self at 1. cbn [fst snd].
  unfold Eff.bind at 1.
  destruct (search_like lower n); unfold Eff.modify_self, Eff.ret;
    cbn [fst snd]; apply IH.
Qed.

Lemma named_unlike_named (t : tool) : named_unlike lower t -> named t.
Proof. intros (n & Hn & _). now exists n. Qed.

(** Tools whose names do not match keep the selection, and the
    descriptor stored under a matching name. *)
Lemma fold_unlike (tools : list tool) :
  Forall (named_unlike lower) tools ->
  forall self n,
    search_like lower n = true ->
    _search_tool_name (fold_left (discover_step lower) tools self) = _search_tool_name self
    /\ Dict.get (Some n) (_available_tools (fold_left (discover_step lower) tools self))
       = Dict.get (Some n) (_available_tools self).
Proof.
  induction 1 as [|t tools (m & Hm & Hlike) _ IH]; intros self n Hn;
    [split; reflexivity|].
  cbn [fold_left]. destruct (IH (discover_step lower self t) n Hn) as [-> ->].
  unfold discover_step. rewrite Hm, Hlike. cbn.
  split; [reflexivity|]. apply DictFacts.get_set_ne. congruence.
Qed.

Lemma step_like (self : search_tool) (t : tool) (n : string) :
  tool_name t = Some n ->
  search_like lower n = true ->
  _search_tool_name (discover_step lower self t) = Some n
  /\ Dict.get (Some n) (_available_tools (discover_step lower self t)) = Some t.
Proof.
  intros Hn Hlike. unfold discover_step. rewrite Hn, Hlike. cbn.
  split; [reflexivity|]. apply DictFacts.get_set_eq.
Qed.

Hypothesis lower_empty : lower "" = "".

Lemma search_like_truthy (n : string) :
  search_like lower n = true -> Str.truthy n = true.
Proof.
  destruct n; [|reflexivity]. unfold search_like. rewrite lower_empty.
  discriminate.
Qed.

End DiscoveryFacts.

(** C10.  When the discovered operations are [before], then [t], then
    [after], the name of [t] contains "search" or "web" in lowercase and
    no name in [after] does, the loop of the handshake leaves the name
    of [t] selected, whatever matched in [before] and whatever an
    earlier handshake left behind: a later match overwrites an earlier
    one.  The selection is then truthy, so the fall-back to the first
    discovered operation is not taken, and the session caches the input
    schema of [t] and becomes ready. *)
Theorem C10_last_match_selected (lower : string -> string)
    (self : search_tool) (sent : list request)
    (before after : list tool) (t : tool) (n : string) :
  lower "" = "" ->
  Forall named before ->
  tool_name t = Some n ->
  search_like lower n = true ->
  Forall (named_unlike lower) after ->
  exists found ready,
    discover lower (before ++ t :: after) (self, sent) = (Ok tt, (found, sent))
    /\ _search_tool_name found = Some n
    /\ Str.truthy_opt (_search_tool_name found) = true
    /\ select_tool (found, sent) = (Ok tt, (ready, sent))
    /\ _search_tool_name ready = Some n
    /\ _input_schema ready = default empty_schema (tool_inputSchema t)
    /\ _session_initialized ready = true.
Proof.
  intros Hlow Hbefore Hn Hlike Hafter.
  assert (Forall named (before ++ t :: after)) as Hall.
  { apply Forall_app. split; [exact Hbefore|]. constructor; [now exists n|].
    eapply Forall_impl; [exact Hafter|]. apply named_unlike_named. }
  rewrite (discover_named lower _ Hall self sent), fold_left_app. cbn [fold_left].
  set (mid := fold_left (discover_step lower) before self).
  destruct (step_like lower mid t n Hn Hlike) as [Hname Hget].
  destruct (fold_unlike lower after Hafter (discover_step lower mid t) n Hlike)
    as [Hname' Hget'].
  rewrite Hname in Hname'. rewrite Hget in Hget'.
  set (found := fold_left (discover_step lower) after (discover_step lower mid t)) in *.
  assert (Str.truthy_opt (_search_tool_name found) = true) as Htruthy.
  { rewrite Hname'. cbn. now apply (search_like_truthy lower Hlow). }
  exists found, (set_ready (default empty_schema (tool_inputSchema t)) found).
  split; [reflexivity|]. split; [exact Hname'|]. split; [exact Htruthy|].
  split; [|split; [exact Hname'|split; reflexivity]].
  unfold select_tool, Eff.bind, Eff.get_self, Eff.ret, Eff.modify_self, Eff.raise.
  cbn [fst snd]. rewrite Htruthy. cbn [negb andb fst snd].
  rewrite Htruthy. cbn [negb]. rewrite Hname', Hget'. reflexivity.
Qed.

(** Two matching operations and one that does not match, discovered by a
    fresh session: the second match is selected. *)
Lemma C10_two_matches :
  exists found ready,
    discover Str.ascii_lower
      ([tool_named "web_search" schema_query_count]
       ++ tool_named "Bing_Search" schema_search_query
       :: [tool_named "calculator" schema_unknown])
      (new_search_tool (Some "key") 10, [])
    = (Ok tt, (found, []))
    /\ _search_tool_name found = Some "Bing_Search"
    /\ Str.truthy_opt (_search_tool_name found) = true
    /\ select_tool (found, []) = (Ok tt, (ready, []))
    /\ _search_tool_name ready = Some "Bing_Search"
    /\ _input_schema ready = default empty_schema (Some schema_search_query)
    /\ _session_initialized ready = true.
Proof.
  apply (C10_last_match_selected Str.ascii_lower (new_search_tool (Some "key") 10) []
           [tool_named "web_search" schema_query_count]
           [tool_named "calculator" schema_unknown]
           (tool_named "Bing_Search" schema_search_query) "Bing_Search").
  - reflexivity.
  - repeat constructor. now exists "web_search".
  - reflexivity.
  - reflexivity.
  - repeat constructor. exists "calculator". split; reflexivity.
Defined.

(** The fall-back: on a fresh session, when every discovered operation
    has a name and none matches, the name of the first one is selected,
    if it is not empty. *)
Lemma fallback_first_discovered (lower : string -> string)
    (api_key : option string) (max : Z) (sent : list request)
    (t : tool) (rest : list tool) (n : string) :
  tool_name t = Some n ->
  Str.truthy n = true ->
  Forall (named_unlike lower) (t :: rest) ->
  exists found ready,
    discover lower (t :: rest) (new_search_tool api_key max, sent)
    = (Ok tt, (found, sent))
    /\ _search_tool_name found = None
    /\ exists selected, select_tool (found, sent) = (Ok tt, (ready, sent))
    /\ _search_tool_name ready = Some n
    /\ Dict.get (Some n) (_available_tools found) = Some selected
    /\ _input_schema ready = default empty_schema (tool_inputSchema selected).
Proof.
  intros Hn Htruthy Hall.
  rewrite (discover_named lower (t :: rest)
             (Forall_impl _ _ _ Hall (named_unlike_named lower))).
  set (fresh := new_search_tool api_key max).
  set (found := fold_left (discover_step lower) (t :: rest) fresh).
  assert (_search_tool_name found = None
          /\ Dict.first_key (_available_tools found) = Some (Some n)
          /\ is_Some (Dict.get (Some n) (_available_tools found)))
    as (Hname & Hfirst & [selected Hget]).
  { subst found. cbn [fold_left].
    assert (_search_tool_name (discover_step lower fresh t) = None
            /\ Dict.first_key (_available_tools (discover_step lower fresh t))
               = Some (Some n)
            /\ is_Some (Dict.get (Some n)
                         (_available_tools (discover_step lower fresh t)))) as H0.
    { inversion Hall as [|? ? (m & Hm & Hlike) _]; subst.
      unfold discover_step. rewrite Hm, Hlike. rewrite Hn in Hm.
      injection Hm as <-. cbn. rewrite decide_True by reflexivity. eauto. }
    inversion Hall as [|? ? _ Hrest]; subst. clear Hall.
    revert H0. generalize (discover_step lower fresh t).
    induction Hrest as [|u rest' (m & Hm & Hlike) _ IH]; intros st H0;
      [exact H0|].
    cbn [fold_left]. apply IH. destruct H0 as (H1 & H2 & H3).
    unfold discover_step. rewrite Hm, Hlike. cbn.
    split; [exact H1|]. split.
    - rewrite DictFacts.first_key_set; [exact H2|].
      intros E. rewrite E in H2. discriminate.
    - destruct (decide (Some m = Some n)) as [->|Hne].
      + rewrite DictFacts.get_set_eq. eauto.
      + rewrite DictFacts.get_set_ne by exact Hne. exact H3. }
  exists found, (set_ready (default empty_schema (tool_inputSchema selected))
                   (set_search_tool_name (Some n) found)).
  split; [reflexivity|]. split; [exact Hname|]. exists selected.
  split; [|split; [reflexivity|split; [exact Hget|reflexivity]]].
  unfold select_tool, Eff.bind, Eff.get_self, Eff.ret, Eff.modify_self, Eff.raise.
  cbn [fst snd]. rewrite Hname. cbn [Str.truthy_opt negb andb].
  destruct (_available_tools found) as [|[k v] d] eqn:Hd; [discriminate|].
  rewrite bool_decide_eq_false_2 by discriminate. cbn [negb fst snd].
  rewrite Hd. cbn [Dict.first_key] in *. injection Hfirst as ->.
  cbn [set_search_tool_name _search_tool_name Str.truthy_opt _available_tools].
  rewrite Htruthy. cbn [negb]. rewrite Hd, Hget. reflexivity.
Qed.

(** The handshake reaches the discovery: when the three requests are
    answered without error and the third answer lists [tools], the
    session ends as the loop and the selection leave it, with the three
    requests sent. *)
Lemma handshake_reaches_discovery (lower : string -> string)
    (environ : gmap string string)
    (network : list request -> request -> result http_response)
    (is_error_status : Z -> bool) (status_message : http_response -> string)
    (response_json : http_response -> result rpc_reply)
    (self : search_tool) (sent : list request)
    (r1 r2 r3 : http_response) (tools : list tool)
    (st : search_tool * list request) :
  _session_initialized self = false ->
  Str.truthy (api_key environ self) = true ->
  network sent (HttpPost (base_url self) (api_key environ self) Initialize)
  = Ok r1 ->
  is_error_status (r_status_code r1) = false ->
  network (sent ++ [HttpPost (base_url self) (api_key environ self) Initialize])%list
    (HttpPost (base_url self) (api_key environ self) NotificationsInitialized)
  = Ok r2 ->
  network ((sent ++ [HttpPost (base_url self) (api_key environ self) Initialize])
           ++ [HttpPost (base_url self) (api_key environ self)
                 NotificationsInitialized])%list
    (HttpPost (base_url self) (api_key environ self) ToolsList)
  = Ok r3 ->
  is_error_status (r_status_code r3) = false ->
  response_json r3 = Ok (ReplyTools tools) ->
  (discover lower tools ;;; select_tool)
    (self,
     ((sent ++ [HttpPost (base_url self) (api_key environ self) Initialize])
      ++ [HttpPost (base_url self) (api_key environ self) NotificationsInitialized])
     ++ [HttpPost (base_url self) (api_key environ self) ToolsList])%list
  = (Ok tt, st) ->
  _ensure_session_initialized lower environ network is_error_status
    status_message response_json (self, sent)
  = (Ok tt, st).
Proof.
  intros Hinit Hkey H1 Hs1 H2 H3 Hs3 Hjson Hrun.
  unfold _ensure_session_initialized.
  unfold Eff.bind at 1. unfold Eff.get_self at 1. cbn [fst snd].
  rewrite Hinit, Hkey. cbn [negb].
  unfold Eff.try_except, post, Eff.raise_for_status.
  unfold Eff.bind at 1. unfold Eff.send at 1. cbn [fst snd]. rewrite H1.
  unfold Eff.bind at 1. rewrite Hs1. unfold Eff.ret at 1.
  unfold Eff.bind at 1. unfold Eff.send at 1. cbn [fst snd]. rewrite H2.
  unfold Eff.bind at 1. unfold Eff.send at 1. cbn [fst snd]. rewrite H3.
  unfold Eff.bind at 1. rewrite Hs3. unfold Eff.ret at 1.
  unfold Eff.bind at 1. unfold Eff.lift at 1. rewrite Hjson. cbn [tools_of].
  rewrite Hrun. reflexivity.
Qed.

(** ** The credential guard *)

(** C6.  With no constructor argument and no environment value for the
    credential, [execute] returns its configuration message, which
    contains "DashScope API key not configured", and leaves the tool and
    the list of requests sent as they were: nothing reaches the
    network. *)
Theorem C6_missing_credential (lower : string -> string)
    (environ : gmap string string)
    (network : list request -> request -> result http_response)
    (is_error_status : Z -> bool) (status_message : http_response -> string)
    (response_json : http_response -> result rpc_reply)
    (json_loads_pages : string -> option (list page))
    (self : search_tool) (sent : list request)
    (query : string) (count : option Z) :
  _init_api_key self = None ->
  environ !! "DASHSCOPE_API_KEY" = None ->
  exists message,
    execute lower environ network is_error_status status_message
      response_json json_loads_pages query count (self, sent)
    = (Ok message, (self, sent))
    /\ Str.contains "DashScope API key not configured" message = true.
Proof.
  intros Hinit Henv.
  eexists. split.
  - unfold execute, Eff.bind, Eff.get_self. cbn [fst snd].
    unfold api_key. rewrite Hinit, Henv. cbn. reflexivity.
  - vm_compute. reflexivity.
Qed.

Lemma C6_fresh_tool_empty_environment :
  exists message,
    execute Str.ascii_lower ∅ (network_ok "{}") http_error (fun _ => "")
      (fun _ => Ok ReplyOther) (fun _ => None) "test query" None
      (new_search_tool None 10, [])
    = (Ok message, (new_search_tool None 10, []))
    /\ Str.contains "DashScope API key not configured" message = true.
Proof.
  apply (C6_missing_credential Str.ascii_lower ∅ (network_ok "{}") http_error
           (fun _ => "") (fun _ => Ok ReplyOther) (fun _ => None)
           (new_search_tool None 10) [] "test query" None);
    reflexivity.
Defined.

(** ** The fetch tool *)

Module StrFacts.

Lemma length_take (n : nat) (s : string) :
  String.length (Str.take n s) = Nat.min n (String.length s).
Proof.
  revert s. induction n as [|n IH]; intros [|c s]; simpl; try reflexivity.
  now rewrite IH.
Qed.

Lemma take_all (n : nat) (s : string) :
  (String.length s <= n)%nat -> Str.take n s = s.
Proof.
  revert s. induction n as [|n IH]; intros [|c s]; simpl; intros H;
    try reflexivity; try lia.
  rewrite IH; [reflexivity|lia].
Qed.

(** For a budget that is not negative, [s[:budget]] is the first
    [budget] characters of [s]. *)
Lemma slice_to_take (budget : Z) (s : string) :
  0 <= budget -> Str.slice_to budget s = Str.take (Z.to_nat budget) s.
Proof.
  intros H. unfold Str.slice_to. destruct (Z.ltb_spec budget 0); [lia|reflexivity].
Qed.

Lemma len_slice_to (budget : Z) (s : string) :
  0 <= budget -> Str.len (Str.slice_to budget s) = Z.min budget (Str.len s).
Proof.
  intros H. rewrite slice_to_take by exact H. unfold Str.len.
  rewrite length_take. lia.
Qed.

End StrFacts.

Section FetchFacts.

Variable lower : string -> string.
Variable unescape : string -> string.
Variable netloc_checks : string -> option string.
Variable network : list request -> request -> result http_response.
Variable is_error_status : Z -> bool.
Variable status_message : http_response -> string.
Variable json_pretty : http_response -> result string.
Variable doc_summary : string -> result string.
Variable doc_title : string -> result string.
Variable _to_markdown : string -> string.

(** The tool, its extraction and its outcome after validation, over the
    libraries and the network of this section. *)
Local Abbreviation run :=
  (fetch_execute lower unescape netloc_checks network is_error_status
     status_message json_pretty doc_summary doc_title _to_markdown).
Local Abbreviation extracted :=
  (extract lower unescape json_pretty doc_summary doc_title _to_markdown).
Local Abbreviation outcome :=
  (after_validation lower unescape network is_error_status status_message
     json_pretty doc_summary doc_title _to_markdown).

(** A URL that fails validation: the error object, and the state as it
    was. *)
Lemma fetch_rejected (self : fetch_tool) (url extractMode : string)
    (maxChars : option Z) (st : fetch_tool * list request) (message : string) :
  Url._validate_url netloc_checks url = (false, message) ->
  run self url extractMode maxChars st
  = (Ok (error_object ("URL validation failed: " +:+ message) url), st).
Proof.
  intros Hv. unfold fetch_execute. rewrite Hv. reflexivity.
Qed.

Lemma fetch_accepted (self : fetch_tool) (url extractMode : string)
    (maxChars : option Z) (tool : fetch_tool) (sent : list request)
    (message : string) :
  Url._validate_url netloc_checks url = (true, message) ->
  run self url extractMode maxChars (tool, sent)
  = (Ok (outcome self url extractMode maxChars sent),
     (tool, (sent ++ [HttpGet url])%list)).
Proof.
  intros Hv. unfold fetch_execute, after_validation.
  rewrite Hv. cbn [negb].
  unfold Eff.try_except, Eff.bind, Eff.send, Eff.raise_for_status, Eff.lift,
    Eff.raise, Eff.ret.
  cbn [fst snd].
  destruct (network sent (HttpGet url)) as [r|e]; [|reflexivity].
  destruct (is_error_status (r_status_code r)); [reflexivity|].
  destruct (extract _ _ _ _ _ _ r extractMode) as [[text extractor]|e];
    reflexivity.
Qed.

(** C4, as the code has it.  For a fetch that passes validation,
    retrieval and extraction, and a character budget ([maxChars or
    self.max_chars]) that is not negative: the returned text is no
    longer than the budget; [truncated] is true exactly when the
    extracted text was longer than the budget; a truncated text is the
    first budget-many characters of the extracted text and any other is
    the extracted text itself; and [length] is the length of the text
    returned. *)
Theorem C4_truncation_within_budget (self : fetch_tool)
    (url extractMode : string) (maxChars : option Z)
    (tool : fetch_tool) (sent : list request) (message : string)
    (r : http_response) (text extractor : string) :
  0 <= effective_max_chars self maxChars ->
  Url._validate_url netloc_checks url = (true, message) ->
  network sent (HttpGet url) = Ok r ->
  is_error_status (r_status_code r) = false ->
  extracted r extractMode = Ok (text, extractor) ->
  exists (returned : string) (truncated : bool),
    run self url extractMode maxChars (tool, sent)
    = (Ok [("url", JStr url); ("finalUrl", JStr (r_url r));
           ("status", JInt (r_status_code r)); ("extractor", JStr extractor);
           ("truncated", JBool truncated); ("length", JInt (Str.len returned));
           ("text", JStr returned)],
       (tool, (sent ++ [HttpGet url])%list))
    /\ Str.len returned <= effective_max_chars self maxChars
    /\ (truncated = true <-> effective_max_chars self maxChars < Str.len text)
    /\ (truncated = true ->
        returned = Str.take (Z.to_nat (effective_max_chars self maxChars)) text)
    /\ (truncated = false -> returned = text).
Proof.
  intros Hbudget Hv Hnet Hstatus Hext.
  set (budget := effective_max_chars self maxChars) in *.
  rewrite (fetch_accepted self url extractMode maxChars tool sent message Hv).
  unfold after_validation. rewrite Hnet, Hstatus, Hext. unfold result_object.
  fold budget. destruct (Z.gtb_spec (Str.len text) budget) as [Hlong|Hshort].
  - exists (Str.slice_to budget text), true. split; [reflexivity|].
    split; [rewrite StrFacts.len_slice_to by exact Hbudget; lia|].
    split; [split; [intros _; lia|reflexivity]|].
    split; [intros _; now apply StrFacts.slice_to_take|discriminate].
  - exists text, false. split; [reflexivity|]. split; [exact Hshort|].
    split; [split; [discriminate|lia]|]. split; [discriminate|reflexivity].
Qed.

(** C7, as the code has it.  A URL that parses with a scheme other than
    http and https, or with one of them and an empty network location,
    fails validation: with the scheme error in the first case (also when
    the network location is empty), with "Missing domain" in the second.
    [fetch_execute] then returns the validation error with the URL and
    sends no request. *)
Theorem C7_rejected_before_any_request (self : fetch_tool)
    (url extractMode : string) (maxChars : option Z)
    (st : fetch_tool * list request) (p : Url.parsed) :
  Url.urlparse netloc_checks url = Ok p ->
  Url.allowed_scheme (Url.scheme p) = false \/ Url.netloc p = "" ->
  exists message,
    message = (if Url.allowed_scheme (Url.scheme p) then "Missing domain"
               else Url.scheme_error (Url.scheme p))
    /\ Url._validate_url netloc_checks url = (false, message)
    /\ run self url extractMode maxChars st
       = (Ok [("error", JStr ("URL validation failed: " +:+ message));
              ("url", JStr url)], st).
Proof.
  intros Hp Hbad. eexists. split; [reflexivity|].
  assert (Url._validate_url netloc_checks url
          = (false, if Url.allowed_scheme (Url.scheme p) then "Missing domain"
                    else Url.scheme_error (Url.scheme p))) as Hv.
  { unfold Url._validate_url. rewrite Hp.
    destruct (Url.allowed_scheme (Url.scheme p)); cbn [negb]; [|reflexivity].
    destruct Hbad as [Hs|Hn]; [discriminate|]. rewrite Hn. reflexivity. }
  split; [exact Hv|]. now apply fetch_rejected.
Qed.

(** C8.  [fetch_execute] always returns, and what it returns is the
    error object (an [error] entry and the original [url]) or the
    result object.  An exception of any step is caught and reported
    with its message: one raised while the URL is parsed, by the
    validation error; one raised by the request, by the status check or
    by the extraction, by the handler of the [try]. *)
Theorem C8_every_fault_is_returned (self : fetch_tool)
    (url extractMode : string) (maxChars : option Z)
    (tool : fetch_tool) (sent : list request) :
  exists (out : list (string * json)) (st : fetch_tool * list request),
    run self url extractMode maxChars (tool, sent) = (Ok out, st)
    /\ ((exists message, out = error_object message url)
        \/ (exists r extractor text,
              out = result_object url r extractor text
                      (effective_max_chars self maxChars)))
    /\ (forall e, Url.urlparse netloc_checks url = Raise e ->
          out = error_object ("URL validation failed: " +:+ str_exn e) url)
    /\ (forall message e,
          Url._validate_url netloc_checks url = (true, message) ->
          network sent (HttpGet url) = Raise e ->
          out = error_object (str_exn e) url)
    /\ (forall message r,
          Url._validate_url netloc_checks url = (true, message) ->
          network sent (HttpGet url) = Ok r ->
          is_error_status (r_status_code r) = true ->
          out = error_object (status_message r) url)
    /\ (forall message r e,
          Url._validate_url netloc_checks url = (true, message) ->
          network sent (HttpGet url) = Ok r ->
          is_error_status (r_status_code r) = false ->
          extracted r extractMode = Raise e ->
          out = error_object (str_exn e) url).
Proof.
  destruct (Url._validate_url netloc_checks url) as [[|] message] eqn:Hv.
  - rewrite (fetch_accepted self url extractMode maxChars tool sent message Hv).
    eexists _, _. split; [reflexivity|]. unfold after_validation.
    split; [|split; [|split; [|split]]].
    + destruct (network sent (HttpGet url)) as [r|e]; [|eauto].
      destruct (is_error_status (r_status_code r)); [eauto|].
      destruct (extracted r extractMode) as [[text extractor]|e]; eauto.
    + intros e He. unfold Url._validate_url in Hv. rewrite He in Hv.
      discriminate.
    + intros _ e _ ->. reflexivity.
    + intros _ r _ -> ->. reflexivity.
    + intros _ r e _ -> -> ->. reflexivity.
  - rewrite (fetch_rejected self url extractMode maxChars (tool, sent) message Hv).
    eexists _, _. split; [reflexivity|].
    split; [eauto|]. split; [|repeat split; intros; congruence].
    intros e He. unfold Url._validate_url in Hv. rewrite He in Hv.
    injection Hv as <-. reflexivity.
Qed.

(** C9.  For a response that arrived and passed the status check, the
    three branches are tried in order and exclude each other: a content
    type that contains "application/json" gives the pretty-printed JSON,
    tagged "json"; otherwise a content type that contains "text/html",
    or a body whose first 256 characters in lowercase start with
    "<!doctype" or "<html", gives the readability text, tagged
    "readability"; otherwise the body itself, tagged "raw".  The tag and
    the text are those of the result object, the text up to
    truncation. *)
Theorem C9_content_type_dispatch (self : fetch_tool)
    (url extractMode : string) (maxChars : option Z)
    (tool : fetch_tool) (sent : list request) (message : string)
    (r : http_response) :
  Url._validate_url netloc_checks url = (true, message) ->
  network sent (HttpGet url) = Ok r ->
  is_error_status (r_status_code r) = false ->
  (Str.contains "application/json" (default "" (r_content_type r)) = true ->
   forall pretty, json_pretty r = Ok pretty ->
     extracted r extractMode = Ok (pretty, "json")
     /\ fst (run self url extractMode maxChars (tool, sent))
        = Ok (result_object url r "json" pretty
                (effective_max_chars self maxChars)))
  /\ (Str.contains "application/json" (default "" (r_content_type r)) = false ->
      Str.contains "text/html" (default "" (r_content_type r)) = true
      \/ (String.prefix "<!doctype" (lower (Str.slice_to 256 (r_text r)))
          || String.prefix "<html" (lower (Str.slice_to 256 (r_text r))) = true) ->
      forall text,
        readable unescape doc_summary doc_title _to_markdown (r_text r) extractMode
        = Ok text ->
        extracted r extractMode = Ok (text, "readability")
        /\ fst (run self url extractMode maxChars (tool, sent))
           = Ok (result_object url r "readability" text
                   (effective_max_chars self maxChars)))
  /\ (Str.contains "application/json" (default "" (r_content_type r)) = false ->
      Str.contains "text/html" (default "" (r_content_type r)) = false ->
      String.prefix "<!doctype" (lower (Str.slice_to 256 (r_text r))) = false ->
      String.prefix "<html" (lower (Str.slice_to 256 (r_text r))) = false ->
      extracted r extractMode = Ok (r_text r, "raw")
      /\ fst (run self url extractMode maxChars (tool, sent))
         = Ok (result_object url r "raw" (r_text r)
                 (effective_max_chars self maxChars))).
Proof.
  intros Hv Hnet Hstatus.
  rewrite (fetch_accepted self url extractMode maxChars tool sent message Hv).
  unfold after_validation. rewrite Hnet, Hstatus. cbn [fst].
  unfold extract, looks_like_html.
  split; [|split].
  - intros -> pretty ->. split; reflexivity.
  - intros -> Hhtml text ->.
    assert (Str.contains "text/html" (default "" (r_content_type r))
            || (String.prefix "<!doctype" (lower (Str.slice_to 256 (r_text r)))
                || String.prefix "<html" (lower (Str.slice_to 256 (r_text r))))
            = true) as ->.
    { destruct Hhtml as [->| ->]; [reflexivity|apply orb_true_r]. }
    split; reflexivity.
  - intros -> -> -> ->. split; reflexivity.
Qed.

End FetchFacts.

(** *** Concrete runs of the fetch tool *)

(** A budget of 100 and a raw text of 500 characters. *)
Lemma C4_budget_100_text_500 :
  exists (returned : string) (truncated : bool),
    fetch_page "text/plain" (repeat_string "0123456789" 50) default_fetch_tool
      "https://example.com/page" "text" (Some 100) (default_fetch_tool, [])
    = (Ok [("url", JStr "https://example.com/page");
           ("finalUrl", JStr "https://example.com/page");
           ("status", JInt 200); ("extractor", JStr "raw");
           ("truncated", JBool truncated); ("length", JInt (Str.len returned));
           ("text", JStr returned)],
       (default_fetch_tool, [HttpGet "https://example.com/page"]))
    /\ Str.len returned <= 100
    /\ (truncated = true <-> 100 < Str.len (repeat_string "0123456789" 50))
    /\ (truncated = true ->
        returned = Str.take 100 (repeat_string "0123456789" 50))
    /\ (truncated = false -> returned = repeat_string "0123456789" 50).
Proof.
  apply (C4_truncation_within_budget Str.ascii_lower Html.unescape (fun _ => None)
           (network_page "text/plain" (repeat_string "0123456789" 50))
           http_error (fun _ => "status error") (fun r => Ok (r_text r))
           (fun html => Ok html) (fun _ => Ok "") (_strip_tags Html.unescape)
           default_fetch_tool "https://example.com/page" "text" (Some 100)
           default_fetch_tool [] ""
           {| r_url := "https://example.com/page"; r_status_code := 200;
              r_content_type := Some "text/plain";
              r_text := repeat_string "0123456789" 50 |}
           (repeat_string "0123456789" 50) "raw").
  - vm_compute. discriminate.
  - vm_compute. reflexivity.
  - reflexivity.
  - reflexivity.
  - vm_compute. reflexivity.
Defined.

Example truncation_100_of_500 :
  fst (fetch_page "text/plain" (repeat_string "0123456789" 50) default_fetch_tool
         "https://example.com/page" "text" (Some 100) (default_fetch_tool, []))
  = Ok [("url", JStr "https://example.com/page");
        ("finalUrl", JStr "https://example.com/page");
        ("status", JInt 200); ("extractor", JStr "raw");
        ("truncated", JBool true); ("length", JInt 100);
        ("text", JStr (repeat_string "0123456789" 10))].
Proof. vm_compute. reflexivity. Qed.

(** C4 as stated fails for a negative budget: [text[:-1]] drops the last
    character only, so with [maxChars = -1] the text "hello" comes back
    as "hell", four characters against a budget of -1, and is not the
    first budget-many characters of anything. *)
Lemma C4_negative_budget :
  effective_max_chars default_fetch_tool (Some (-1)) = -1
  /\ fst (fetch_page "text/plain" "hello" default_fetch_tool
            "https://example.com/page" "text" (Some (-1)) (default_fetch_tool, []))
     = Ok [("url", JStr "https://example.com/page");
           ("finalUrl", JStr "https://example.com/page");
           ("status", JInt 200); ("extractor", JStr "raw");
           ("truncated", JBool true); ("length", JInt 4);
           ("text", JStr "hell")]
  /\ (Str.len "hell" <=? -1) = false.
Proof. vm_compute. repeat split; reflexivity. Qed.

(** A URL with the scheme ftp. *)
Lemma C7_ftp_rejected :
  exists message,
    message = (if Url.allowed_scheme "ftp" then "Missing domain"
               else Url.scheme_error "ftp")
    /\ Url._validate_url (fun _ => None) "ftp://example.com" = (false, message)
    /\ fetch_page "text/plain" "hello" default_fetch_tool "ftp://example.com"
         "markdown" None (default_fetch_tool, [])
       = (Ok [("error", JStr ("URL validation failed: " +:+ message));
              ("url", JStr "ftp://example.com")], (default_fetch_tool, [])).
Proof.
  apply (C7_rejected_before_any_request Str.ascii_lower Html.unescape (fun _ => None)
           (network_page "text/plain" "hello") http_error (fun _ => "status error")
           (fun r => Ok (r_text r)) (fun html => Ok html) (fun _ => Ok "")
           (_strip_tags Html.unescape) default_fetch_tool "ftp://example.com"
           "markdown" None (default_fetch_tool, [])
           {| Url.scheme := "ftp"; Url.netloc := "example.com" |}).
  - vm_compute. reflexivity.
  - left. reflexivity.
Defined.

Example ftp_scheme_error :
  Url._validate_url (fun _ => None) "ftp://example.com"
  = (false, "Only http/https allowed, got 'ftp'").
Proof. vm_compute. reflexivity. Qed.

Example missing_domain_error :
  Url._validate_url (fun _ => None) "https:///path" = (false, "Missing domain").
Proof. vm_compute. reflexivity. Qed.

(** C7 as stated fails on "not-a-url": it parses with no scheme and no
    network location, and the scheme is checked first, so the error is
    the scheme error with 'none', not "Missing domain". *)
Lemma C7_not_a_url_scheme_error :
  Url.urlparse (fun _ => None) "not-a-url"
  = Ok {| Url.scheme := ""; Url.netloc := "" |}
  /\ Url._validate_url (fun _ => None) "not-a-url"
     = (false, "Only http/https allowed, got 'none'")
  /\ String.eqb "Only http/https allowed, got 'none'" "Missing domain" = false.
Proof. vm_compute. repeat split; reflexivity. Qed.

(** A plain-text page takes the third branch. *)
Lemma C9_plain_text_is_raw :
  extract Str.ascii_lower Html.unescape (fun r => Ok (r_text r))
    (fun html => Ok html) (fun _ => Ok "") (_strip_tags Html.unescape)
    {| r_url := "https://example.com/page"; r_status_code := 200;
       r_content_type := Some "text/plain"; r_text := "hello" |} "markdown"
  = Ok ("hello", "raw")
  /\ fst (fetch_page "text/plain" "hello" default_fetch_tool
            "https://example.com/page" "markdown" None (default_fetch_tool, []))
     = Ok (result_object "https://example.com/page"
             {| r_url := "https://example.com/page"; r_status_code := 200;
                r_content_type := Some "text/plain"; r_text := "hello" |}
             "raw" "hello" (effective_max_chars default_fetch_tool None)).
Proof.
  apply (C9_content_type_dispatch Str.ascii_lower Html.unescape (fun _ => None)
           (network_page "text/plain" "hello") http_error (fun _ => "status error")
           (fun r => Ok (r_text r)) (fun html => Ok html) (fun _ => Ok "")
           (_strip_tags Html.unescape) default_fetch_tool
           "https://example.com/page" "markdown" None default_fetch_tool [] ""
           {| r_url := "https://example.com/page"; r_status_code := 200;
              r_content_type := Some "text/plain"; r_text := "hello" |});
    reflexivity.
Defined.

(** The three branches on concrete pages; a JSON content type wins over
    a body that looks like HTML, and the match is on the content type as
    sent, case included. *)
Example dispatch_json :
  fst (fetch_page "application/json; charset=utf-8" "<html>{}</html>"
         default_fetch_tool "https://example.com/a" "text" None
         (default_fetch_tool, []))
  = Ok [("url", JStr "https://example.com/a");
        ("finalUrl", JStr "https://example.com/a");
        ("status", JInt 200); ("extractor", JStr "json");
        ("truncated", JBool false); ("length", JInt 15);
        ("text", JStr "<html>{}</html>")].
Proof. vm_compute. reflexivity. Qed.

Example dispatch_html_by_body :
  fst (fetch_page "text/plain" "<!DOCTYPE html><p>Hi</p>"
         default_fetch_tool "https://example.com/a" "text" None
         (default_fetch_tool, []))
  = Ok [("url", JStr "https://example.com/a");
        ("finalUrl", JStr "https://example.com/a");
        ("status", JInt 200); ("extractor", JStr "readability");
        ("truncated", JBool false); ("length", JInt 2);
        ("text", JStr "Hi")].
Proof. vm_compute. reflexivity. Qed.

Example dispatch_raw_on_leading_blank :
  fst (fetch_page "Application/JSON" " <html><p>Hi</p></html>"
         default_fetch_tool "https://example.com/a" "text" None
         (default_fetch_tool, []))
  = Ok [("url", JStr "https://example.com/a");
        ("finalUrl", JStr "https://example.com/a");
        ("status", JInt 200); ("extractor", JStr "raw");
        ("truncated", JBool false); ("length", JInt 23);
        ("text", JStr " <html><p>Hi</p></html>")].
Proof. vm_compute. reflexivity. Qed.

(** A failing request comes back as the error object. *)
Example request_error_is_returned :
  fst (fetch_execute Str.ascii_lower Html.unescape (fun _ => None)
         (fun _ _ => Raise (RequestError "All connection attempts failed"))
         http_error (fun _ => "status error") (fun r => Ok (r_text r))
         (fun html => Ok html) (fun _ => Ok "") (_strip_tags Html.unescape)
         default_fetch_tool "https://example.com/a" "text" None
         (default_fetch_tool, []))
  = Ok [("error", JStr "All connection attempts failed");
        ("url", JStr "https://example.com/a")].
Proof. vm_compute. reflexivity. Qed.

(** ** Tag stripping *)

Module ReFacts.

Lemma sub_del_free (m : string -> option nat) (s : string) :
  free m s -> Re.sub_del m 0 s = s.
Proof.
  induction s as [|c s IH]; simpl; [reflexivity|].
  intros [-> Hs]. now rewrite IH.
Qed.

(** A deletion brings no new character. *)
Lemma index_char_sub_del (c : ascii) (m : string -> option nat) (s : string) :
  forall k, Str.index_char c s = None -> Str.index_char c (Re.sub_del m k s) = None.
Proof.
  induction s as [|d s IH]; intros k; simpl; [reflexivity|].
  destruct (Ascii.eqb c d) eqn:Hcd; [discriminate|].
  destruct (Str.index_char c s) eqn:Hs; [discriminate|]. intros _.
  destruct k as [|k]; [|now apply IH].
  destruct (m (String d s)) as [[|n]|]; simpl; rewrite ?Hcd, ?IH; auto.
Qed.

Lemma has_char_sub_del (c : ascii) (m : string -> option nat) (s : string) :
  forall k, Str.has_char c s = false -> Str.has_char c (Re.sub_del m k s) = false.
Proof.
  induction s as [|d s IH]; intros k; simpl; [reflexivity|].
  intros [Hcd Hs]%orb_false_elim.
  destruct k as [|k]; [|now apply IH].
  destruct (m (String d s)) as [[|n]|]; simpl; rewrite ?Hcd, ?IH; auto.
Qed.

(** What is left after the tags are deleted holds no tag. *)
Lemma tag_free_sub_del (s : string) :
  forall k, free Re.tag_match (Re.sub_del Re.tag_match k s).
Proof.
  induction s as [|c s IH]; intros k; [exact I|].
  destruct k as [|k]; cbn [Re.sub_del]; [|apply IH].
  destruct (Re.tag_match (String c s)) as [[|n]|] eqn:E.
  - exfalso. unfold Re.tag_match in E. destruct (Ascii.eqb c "<"); [|discriminate].
    destruct (Str.index_char ">" s) as [[|j]|]; discriminate.
  - apply IH.
  - split; [|apply IH]. unfold Re.tag_match in *.
    destruct (Ascii.eqb c "<"); [|reflexivity].
    destruct (Str.index_char ">" s) as [[|j]|] eqn:Hi; try discriminate.
    + destruct s as [|d s']; [discriminate|]. cbn [Str.index_char] in Hi.
      destruct (Ascii.eqb ">" d) eqn:Hd.
      * apply Ascii.eqb_eq in Hd. subst d. cbn. reflexivity.
      * destruct (Str.index_char ">" s'); discriminate Hi.
    + now rewrite index_char_sub_del.
Qed.

Lemma index_char_app (c : ascii) (x y : string) (n : nat) :
  Str.index_char c x = Some n -> Str.index_char c (x +:+ y) = Some n.
Proof.
  revert n. induction x as [|d x IH]; intros n; simpl; [discriminate|].
  destruct (Ascii.eqb c d); [auto|].
  destruct (Str.index_char c x) as [i|]; [|discriminate].
  intros [= <-]. now rewrite (IH i).
Qed.

Lemma tag_match_app (x y : string) (n : nat) :
  Re.tag_match x = Some n -> Re.tag_match (x +:+ y) = Some n.
Proof.
  destruct x as [|c x]; simpl; [discriminate|].
  destruct (Ascii.eqb c "<"); [|discriminate].
  destruct (Str.index_char ">" x) as [[|j]|] eqn:Hi; try discriminate.
  now rewrite (index_char_app _ _ y _ Hi).
Qed.

Lemma free_app_l (m : string -> option nat) (x y : string) :
  (forall a b n, m a = Some n -> m (a +:+ b) = Some n) ->
  free m (x +:+ y) -> free m x.
Proof.
  intros Happ. induction x as [|c x IH]; simpl; [auto|].
  intros [Hm Hrest]. split; [|auto].
  destruct (m (String c x)) as [n|] eqn:E; [|reflexivity].
  apply (Happ _ y) in E.
  change (String c x +:+ y) with (String c (x +:+ y)) in E. congruence.
Qed.

Lemma free_drop (m : string -> option nat) (n : nat) (s : string) :
  free m s -> free m (Str.drop n s).
Proof.
  revert s. induction n as [|n IH]; intros [|c s]; simpl; auto.
  intros [_ Hs]. now apply IH.
Qed.

End ReFacts.

Module StripFacts.

(** [rstrip] keeps a prefix. *)
Lemma rstrip_prefix (s : string) : exists w, s = Str.rstrip s +:+ w.
Proof.
  induction s as [|c s [w Hw]]; [now exists ""|]. cbn [Str.rstrip].
  destruct (Str.rstrip s) as [|k ks] eqn:E.
  - destruct (Str.is_space c); [now exists (String c s)|].
    exists s. reflexivity.
  - exists w. rewrite Hw at 1. reflexivity.
Qed.

Lemma rstrip_idempotent (s : string) : Str.rstrip (Str.rstrip s) = Str.rstrip s.
Proof.
  induction s as [|c s IH]; [reflexivity|]. cbn [Str.rstrip].
  destruct (Str.rstrip s) as [|k ks] eqn:E.
  - destruct (Str.is_space c) eqn:Hc; [reflexivity|].
    cbn. now rewrite Hc.
  - cbn [Str.rstrip]. cbn [Str.rstrip] in IH.
    destruct (match Str.rstrip ks with
              | EmptyString => if Str.is_space k then EmptyString else String k EmptyString
              | String a s0 => String k (String a s0)
              end); [discriminate|]. now rewrite IH.
Qed.

Lemma lstrip_starts_clean (s : string) : starts_clean (Str.lstrip s).
Proof.
  induction s as [|c s IH]; [exact I|]. cbn [Str.lstrip].
  destruct (Str.is_space c) eqn:Hc; [exact IH|exact Hc].
Qed.

Lemma lstrip_clean (s : string) : starts_clean s -> Str.lstrip s = s.
Proof. destruct s as [|c s]; [reflexivity|]. cbn. now intros ->. Qed.

Lemma rstrip_starts_clean (s : string) :
  starts_clean s -> starts_clean (Str.rstrip s).
Proof.
  destruct s as [|c s]; [auto|]. cbn [Str.rstrip starts_clean]. intros Hc.
  destruct (Str.rstrip s); [now rewrite Hc|exact Hc].
Qed.

Lemma strip_idempotent (s : string) : Str.strip (Str.strip s) = Str.strip s.
Proof.
  unfold Str.strip.
  rewrite (lstrip_clean (Str.rstrip (Str.lstrip s))).
  - apply rstrip_idempotent.
  - apply rstrip_starts_clean, lstrip_starts_clean.
Qed.

Lemma has_char_lstrip (c : ascii) (s : string) :
  Str.has_char c s = false -> Str.has_char c (Str.lstrip s) = false.
Proof.
  induction s as [|d s IH]; [auto|]. cbn [Str.lstrip].
  destruct (Str.is_space d); [|auto].
  cbn. intros [_ H]%orb_false_elim. auto.
Qed.

Lemma has_char_app_l (c : ascii) (x y : string) :
  Str.has_char c (x +:+ y) = false -> Str.has_char c x = false.
Proof.
  induction x as [|d x IH]; [reflexivity|].
  change (String d x +:+ y) with (String d (x +:+ y)). cbn.
  intros [-> H]%orb_false_elim. auto.
Qed.

Lemma has_char_strip (c : ascii) (s : string) :
  Str.has_char c s = false -> Str.has_char c (Str.strip s) = false.
Proof.
  intros H%has_char_lstrip. unfold Str.strip.
  destruct (rstrip_prefix (Str.lstrip s)) as [w Hw].
  rewrite Hw in H. now apply has_char_app_l in H.
Qed.

Lemma free_lstrip (m : string -> option nat) (s : string) :
  free m s -> free m (Str.lstrip s).
Proof.
  induction s as [|c s IH]; [auto|]. cbn [Str.lstrip].
  destruct (Str.is_space c); [|auto]. intros [_ H]. auto.
Qed.

(** Stripping text that holds no tag leaves text that holds no tag. *)
Lemma tag_free_strip (s : string) :
  free Re.tag_match s -> free Re.tag_match (Str.strip s).
Proof.
  intros H%free_lstrip. unfold Str.strip.
  destruct (rstrip_prefix (Str.lstrip s)) as [w Hw].
  rewrite Hw in H. revert H. apply ReFacts.free_app_l.
  intros a b n. apply ReFacts.tag_match_app.
Qed.

End StripFacts.

Module BlockFacts.

Lemma prefix_ci_cons (a c : ascii) (lit y : string) :
  Re.prefix_ci (String a lit) (String c y) = true ->
  Str.lower_char c = a /\ Re.prefix_ci lit y = true.
Proof.
  unfold Re.prefix_ci. cbn [String.length Str.take Str.ascii_lower String.prefix].
  destruct (ascii_dec a (Str.lower_char c)) as [->|]; [auto|discriminate].
Qed.

Lemma prefix_ci_empty (a : ascii) (lit : string) :
  Re.prefix_ci (String a lit) EmptyString = false.
Proof. reflexivity. Qed.

Lemma eqb_gt_lower (c : ascii) :
  Ascii.eqb ">" (Str.lower_char c) = Ascii.eqb ">" c.
Proof. destruct c as [[] [] [] [] [] [] [] []]; reflexivity. Qed.

Lemma eqb_lower_lt (c : ascii) :
  Ascii.eqb (Str.lower_char c) "<" = Ascii.eqb c "<".
Proof. destruct c as [[] [] [] [] [] [] [] []]; reflexivity. Qed.

(** Text that matches a literal under [re.I] has its first [">"] where
    the literal has it. *)
Lemma index_gt_ci (lit : string) :
  forall y n,
    Str.index_char ">" lit = Some n ->
    Re.prefix_ci lit y = true ->
    Str.index_char ">" y = Some n.
Proof.
  induction lit as [|a lit IH]; intros y n; [discriminate|].
  destruct y as [|c y]; [now rewrite prefix_ci_empty|].
  intros Hn [<- Hrest]%prefix_ci_cons. cbn [Str.index_char] in *.
  rewrite eqb_gt_lower in Hn. destruct (Ascii.eqb ">" c); [exact Hn|].
  destruct (Str.index_char ">" lit) as [i|]; [|discriminate].
  now rewrite (IH y i eq_refl Hrest).
Qed.

(** A closing tag is a tag. *)
Lemma closer_is_tag (lit y : string) (j : nat) :
  Str.index_char ">" lit = Some (S j) ->
  Re.prefix_ci (String "<" lit) y = true ->
  Re.tag_match y = Some (S j + 2)%nat.
Proof.
  intros Hj. destruct y as [|c y]; [now rewrite prefix_ci_empty|].
  intros [Hc Hrest]%prefix_ci_cons. unfold Re.tag_match.
  rewrite <- eqb_lower_lt, Hc. cbn [Ascii.eqb Bool.eqb].
  now rewrite (index_gt_ci lit y (S j) Hj Hrest).
Qed.

Lemma find_ci_spec (lit s : string) :
  forall i, Re.find_ci lit s = Some i -> Re.prefix_ci lit (Str.drop i s) = true.
Proof.
  induction s as [|c s IH]; intros i; cbn [Re.find_ci].
  - destruct (Re.prefix_ci lit "") eqn:E; [|discriminate].
    intros [= <-]. exact E.
  - destruct (Re.prefix_ci lit (String c s)) eqn:E.
    + intros [= <-]. exact E.
    + destruct (Re.find_ci lit s) as [i'|]; [|discriminate].
      intros [= <-]. cbn. now apply IH.
Qed.

Lemma tag_free_head (s : string) : free Re.tag_match s -> Re.tag_match s = None.
Proof. destruct s; [reflexivity|]. now intros [H _]. Qed.

(** Text that holds no tag holds no block closed by a closing tag. *)
Lemma block_free (open lit : string) (j : nat) (s : string) :
  Str.index_char ">" lit = Some (S j) ->
  free Re.tag_match s ->
  free (Re.block_match open (String "<" lit)) s.
Proof.
  intros Hj. induction s as [|c s IH]; [auto|].
  intros Hfree. split; [|apply IH, Hfree].
  unfold Re.block_match. destruct (Re.prefix_ci open (String c s)); [|reflexivity].
  destruct (Re.find_ci _ _) as [i|] eqn:Hfind; [|reflexivity]. exfalso.
  apply find_ci_spec in Hfind. apply (closer_is_tag lit _ j Hj) in Hfind.
  rewrite tag_free_head in Hfind; [discriminate|].
  now apply ReFacts.free_drop, ReFacts.free_drop.
Qed.

End BlockFacts.

(** C5, as the code has it.  On text without ["&"], so with no
    character reference to decode, [_strip_tags] is idempotent: its
    result holds no tag, no script or style block and no surrounding
    space, so a second pass changes nothing.  [html.unescape] enters
    only through its first line: text without ["&"] is returned as it
    is. *)
Theorem C5_strip_tags_idempotent_without_references
    (unescape : string -> string) (s : string) :
  (forall t, Str.has_char "&" t = false -> unescape t = t) ->
  Str.has_char "&" s = false ->
  _strip_tags unescape (_strip_tags unescape s) = _strip_tags unescape s.
Proof.
  intros Hunescape Hs. unfold _strip_tags.
  set (t := Re.sub_del Re.tag_match 0
              (Re.sub_del Re.style_match 0 (Re.sub_del Re.script_match 0 s))).
  assert (Str.has_char "&" t = false) as Ht
    by now repeat apply ReFacts.has_char_sub_del.
  rewrite (Hunescape t Ht).
  assert (free Re.tag_match (Str.strip t)) as Hfree
    by apply StripFacts.tag_free_strip, ReFacts.tag_free_sub_del.
  rewrite (ReFacts.sub_del_free Re.script_match (Str.strip t))
    by now apply (BlockFacts.block_free "<script" "/script>" 6).
  rewrite (ReFacts.sub_del_free Re.style_match (Str.strip t))
    by now apply (BlockFacts.block_free "<style" "/style>" 5).
  rewrite (ReFacts.sub_del_free Re.tag_match (Str.strip t) Hfree).
  rewrite (Hunescape (Str.strip t)) by now apply StripFacts.has_char_strip.
  apply StripFacts.strip_idempotent.
Qed.

Lemma C5_markup_without_references :
  _strip_tags Html.unescape
    (_strip_tags Html.unescape " <p>Hi <b>there</b></p><SCRIPT>x<y</script> <>z ")
  = _strip_tags Html.unescape " <p>Hi <b>there</b></p><SCRIPT>x<y</script> <>z ".
Proof.
  apply (C5_strip_tags_idempotent_without_references Html.unescape
           " <p>Hi <b>there</b></p><SCRIPT>x<y</script> <>z ").
  - intros t Ht. unfold Html.unescape. rewrite Ht. reflexivity.
  - reflexivity.
Defined.

Example strip_tags_run :
  _strip_tags Html.unescape " <p>Hi <b>there</b></p><SCRIPT>x<y</script> <>z "
  = "Hi there <>z".
Proof. vm_compute. reflexivity. Qed.

(** C5 as stated fails when decoding produces markup: "&lt;b&gt;" holds
    no tag, is decoded to "<b>", and a second pass deletes that as a
    tag. *)
Lemma C5_decoded_tag_is_stripped_again :
  _strip_tags Html.unescape "&lt;b&gt;" = "<b>"
  /\ _strip_tags Html.unescape (_strip_tags Html.unescape "&lt;b&gt;") = ""
  /\ String.eqb "" "<b>" = false.
Proof. vm_compute. repeat split; reflexivity. Qed.

(** * Further properties of the search tool *)

Section SessionFacts.

Variable lower : string -> string.

Lemma discover_step_keeps (self : search_tool) (t : tool) :
  same_configuration self (discover_step lower self t)
  /\ _session_initialized (discover_step lower self t) = _session_initialized self
  /\ _input_schema (discover_step lower self t) = _input_schema self.
Proof.
  unfold discover_step, same_configuration.
  destruct (tool_name t) as [n|]; [destruct (search_like lower n)|];
    cbn; auto.
Qed.

Lemma discovered_keeps (tools : list tool) :
  forall self,
    same_configuration self (snd (discovered lower tools self))
    /\ _session_initialized (snd (discovered lower tools self))
       = _session_initialized self
    /\ _input_schema (snd (discovered lower tools self)) = _input_schema self.
Proof.
  induction tools as [|t tools IH]; intros self; cbn [discovered].
  - unfold same_configuration. cbn. auto.
  - destruct (discover_step_keeps self t) as ((K1 & K2 & K3) & Hi & Hs).
    destruct (tool_name t) as [n|]; cbn [snd].
    + destruct (IH (discover_step lower self t)) as ((J1 & J2 & J3) & Ji & Js).
      unfold same_configuration. repeat split; congruence.
    + unfold same_configuration. auto.
Qed.

(** The loop in closed form: it ends, or raises at the first tool that
    has no name, with that tool already stored. *)
Lemma discover_discovered (tools : list tool) :
  forall self sent,
    discover lower tools (self, sent)
    = (if fst (discovered lower tools self) then Ok tt
       else Raise (PyException "'NoneType' object has no attribute 'lower'"),
       (snd (discovered lower tools self), sent)).
Proof.
  induction tools as [|t tools IH]; intros self sent; [reflexivity|].
  cbn [discover discovered].
  unfold Eff.bind at 1. unfold Eff.modify_self at 1. cbn [fst snd].
  destruct (tool_name t) as [n|] eqn:Hn.
  - rewrite <- IH. unfold discover_step. rewrite Hn. unfold Eff.bind at 1.
    destruct (search_like lower n); reflexivity.
  - unfold discover_step. rewrite Hn. reflexivity.
Qed.

(** The selection: it sends nothing; when it returns the session is
    ready, when it raises the session is as ready as it was. *)
Lemma select_tool_post (self : search_tool) (sent : list request) :
  match select_tool (self, sent) with
  | (Ok _, (self', sent')) =>
      sent' = sent /\ ready self' /\ same_configuration self self'
  | (Raise e, (self', sent')) =>
      sent' = sent
      /\ _session_initialized self' = _session_initialized self
      /\ _input_schema self' = _input_schema self
      /\ same_configuration self self'
  end.
Proof.
  unfold select_tool, Eff.bind, Eff.get_self, Eff.modify_self, Eff.ret, Eff.raise.
  cbn [fst snd].
  set (self1 := if negb (Str.truthy_opt (_search_tool_name self))
                   && negb (bool_decide (_available_tools self = []))
                then match Dict.first_key (_available_tools self) with
                     | Some k => set_search_tool_name k self
                     | None => self
                     end
                else self).
  assert (_session_initialized self1 = _session_initialized self
          /\ _input_schema self1 = _input_schema self
          /\ same_configuration self self1) as (Hi & Hs & Hc).
  { subst self1. unfold same_configuration.
    destruct (negb _ && negb _); [|auto].
    destruct (Dict.first_key _); cbn; auto. }
  replace ((if negb (Str.truthy_opt (_search_tool_name self))
               && negb (bool_decide (_available_tools self = []))
            then fun st : search_tool * list request =>
                   (Ok tt, (match Dict.first_key (_available_tools st.1) with
                            | Some k => set_search_tool_name k st.1
                            | None => st.1
                            end, st.2))
            else fun st => (Ok tt, st)) (self, sent))
    with (@Ok unit tt, (self1, sent))
    by (subst self1; destruct (negb _ && negb _); reflexivity).
  cbn [fst snd].
  destruct (Str.truthy_opt (_search_tool_name self1)) eqn:Hname; cbn [negb].
  - destruct (Dict.get _ _) as [selected|] eqn:Hget; cbn [fst snd].
    + split; [reflexivity|]. split.
      * unfold ready. cbn. split; [reflexivity|]. split; [exact Hname|].
        exists selected. split; [exact Hget|reflexivity].
      * unfold same_configuration in *. cbn. exact Hc.
    + auto.
  - auto.
Qed.

End SessionFacts.

Section HandshakeFacts.

Variable lower : string -> string.
Variable environ : gmap string string.
Variable network : list request -> request -> result http_response.
Variable is_error_status : Z -> bool.
Variable status_message : http_response -> string.
Variable response_json : http_response -> result rpc_reply.

Local Abbreviation handshake :=
  (_ensure_session_initialized lower environ network is_error_status
     status_message response_json).

(** Whatever is raised inside the [try] of the handshake leaves it as a
    [RuntimeError]. *)
Lemma handshake_handler_wraps (A : Type) (e : exn)
    (st : search_tool * list request) :
  exists msg,
    (match e with
     | HTTPStatusError code _ =>
         @Eff.raise search_tool A (RuntimeError
           ("HTTP error " +:+ pretty code +:+ ": Failed to initialize MCP session"))
     | RequestError msg =>
         Eff.raise (RuntimeError ("Request error during initialization: " +:+ msg))
     | _ =>
         Eff.raise (RuntimeError ("Error initializing MCP session: " +:+ str_exn e))
     end) st
    = (Raise (RuntimeError msg), st).
Proof. destruct e; eexists; reflexivity. Qed.

Lemma same_configuration_trans (a b c : search_tool) :
  same_configuration a b -> same_configuration b c -> same_configuration a c.
Proof. unfold same_configuration. intuition congruence. Qed.

Ltac close_failure n :=
  unfold same_configuration in *;
  repeat split; try (intuition congruence);
  exists n; split; [lia|];
  unfold handshake_posts; cbn [firstn]; rewrite <- ?app_assoc; reflexivity.

(** The handler applied to an exception that is not known. *)
Ltac wrap_failure e n :=
  match goal with
  | |- context [match e with HTTPStatusError _ _ => _ | _ => _ end ?st] =>
      let m := fresh "m" in
      destruct (handshake_handler_wraps unit e st) as [m ->];
      split; [now exists m|]; close_failure n
  end.

(** The handler applied to an exception of a known class. *)
Ltac wrap_raised n :=
  unfold Eff.raise; cbv beta iota;
  split; [eexists; reflexivity|]; close_failure n.

Lemma handshake_post (self : search_tool) (sent : list request) :
  _session_initialized self = false ->
  Str.truthy (api_key environ self) = true ->
  match handshake (self, sent) with
  | (Ok _, (self', sent')) =>
      ready self' /\ same_configuration self self'
      /\ sent' = (sent ++ handshake_posts (base_url self) (api_key environ self))%list
  | (Raise e, (self', sent')) =>
      is_runtime_error e
      /\ _session_initialized self' = false
      /\ _input_schema self' = _input_schema self
      /\ same_configuration self self'
      /\ exists n, (1 <= n <= 3)%nat
           /\ sent' = (sent ++ take n (handshake_posts (base_url self)
                                         (api_key environ self)))%list
  end.
Proof.
  intros Hinit Hkey.
  assert (same_configuration self self) as Hsame by (unfold same_configuration; auto).
  unfold _ensure_session_initialized.
  unfold Eff.bind at 1. unfold Eff.get_self at 1. cbn [fst snd].
  rewrite Hinit, Hkey. cbn [negb].
  unfold Eff.try_except, post, Eff.raise_for_status.
  unfold Eff.bind at 1. unfold Eff.send at 1. cbn [fst snd].
  destruct (network sent _) as [r1|e1].
  all: cbv beta iota.
  2:{ wrap_failure e1 1%nat. }
  unfold Eff.bind at 1. destruct (is_error_status (r_status_code r1)).
  { wrap_raised 1%nat. }
  unfold Eff.ret at 1. cbv beta iota.
  unfold Eff.bind at 1. unfold Eff.send at 1. cbn [fst snd].
  destruct (network _ _) as [r2|e2]; cbv beta iota.
  2:{ wrap_failure e2 2%nat. }
  unfold Eff.bind at 1. unfold Eff.send at 1. cbn [fst snd].
  destruct (network _ _) as [r3|e3]; cbv beta iota.
  2:{ wrap_failure e3 3%nat. }
  unfold Eff.bind at 1. destruct (is_error_status (r_status_code r3)).
  { wrap_raised 3%nat. }
  unfold Eff.ret at 1. cbv beta iota.
  unfold Eff.bind at 1. unfold Eff.lift at 1.
  destruct (response_json r3) as [tools_data|e4]; cbv beta iota.
  2:{ wrap_failure e4 3%nat. }
  unfold Eff.bind at 1. rewrite discover_discovered.
  destruct (discovered_keeps lower (tools_of tools_data) self) as (Kc & Ki & Ks).
  destruct (fst (discovered lower (tools_of tools_data) self)); cbv beta iota.
  2:{ wrap_raised 3%nat. }
  pose proof (select_tool_post (snd (discovered lower (tools_of tools_data) self))
                (((sent ++ [HttpPost (base_url self) (api_key environ self) Initialize])
                  ++ [HttpPost (base_url self) (api_key environ self)
                        NotificationsInitialized])
                 ++ [HttpPost (base_url self) (api_key environ self) ToolsList])%list)
    as Hsel.
  destruct (select_tool _) as [[[]|e5] [self' sent']]; cbv beta iota.
  - destruct Hsel as (-> & Hready & Hc). split; [exact Hready|].
    split; [exact (same_configuration_trans _ _ _ Kc Hc)|].
    unfold handshake_posts. rewrite <- !app_assoc. reflexivity.
  - destruct Hsel as (-> & Hi & Hs & Hc).
    assert (same_configuration self self') as Hc'
      by exact (same_configuration_trans _ _ _ Kc Hc).
    assert (_session_initialized self' = false) as Hi' by congruence.
    assert (_input_schema self' = _input_schema self) as Hs' by congruence.
    wrap_failure e5 3%nat.
Qed.

(** A handshake that returns on a session that was not ready leaves it
    ready, with the constructor's attributes untouched, and has sent
    the three requests of the handshake and nothing else. *)
Theorem handshake_success_ready (self self' : search_tool)
    (sent sent' : list request) :
  _session_initialized self = false ->
  handshake (self, sent) = (Ok tt, (self', sent')) ->
  ready self' /\ same_configuration self self'
  /\ sent' = (sent ++ handshake_posts (base_url self) (api_key environ self))%list.
Proof.
  intros Hinit Hrun.
  destruct (Str.truthy (api_key environ self)) eqn:Hkey.
  - pose proof (handshake_post self sent Hinit Hkey) as H.
    rewrite Hrun in H. exact H.
  - unfold _ensure_session_initialized in Hrun.
    unfold Eff.bind at 1 in Hrun. unfold Eff.get_self at 1 in Hrun.
    cbn [fst snd] in Hrun. rewrite Hinit, Hkey in Hrun. discriminate.
Qed.

(** A handshake that fails on a session that was not ready leaves it
    not ready, so the next call tries again, and keeps the cached
    schema.  What it raises is a [RuntimeError], or the [ValueError] of
    the missing credential, in which case nothing was sent. *)
Theorem handshake_failure_not_ready (self self' : search_tool)
    (sent sent' : list request) (e : exn) :
  _session_initialized self = false ->
  handshake (self, sent) = (Raise e, (self', sent')) ->
  _session_initialized self' = false
  /\ _input_schema self' = _input_schema self
  /\ same_configuration self self'
  /\ (is_runtime_error e
      \/ (Str.truthy (api_key environ self) = false
          /\ (exists msg, e = ValueError msg) /\ self' = self /\ sent' = sent)).
Proof.
  intros Hinit Hrun.
  destruct (Str.truthy (api_key environ self)) eqn:Hkey.
  - pose proof (handshake_post self sent Hinit Hkey) as H.
    rewrite Hrun in H. destruct H as (He & Hi & Hs & Hc & _). auto.
  - unfold _ensure_session_initialized in Hrun.
    unfold Eff.bind at 1 in Hrun. unfold Eff.get_self at 1 in Hrun.
    cbn [fst snd] in Hrun. rewrite Hinit, Hkey in Hrun.
    injection Hrun as <- <- <-. unfold same_configuration.
    repeat split; auto. right. repeat split; auto. eexists. reflexivity.
Qed.


Variable json_loads_pages : string -> option (list page).

Local Abbreviation search :=
  (execute lower environ network is_error_status status_message
     response_json json_loads_pages).

(** [execute] of the search tool never raises: every path ends in a
    string. *)
Theorem search_execute_always_returns (query : string) (count : option Z)
    (st : search_tool * list request) :
  exists message st', search query count st = (Ok message, st').
Proof.
  unfold execute. unfold Eff.bind at 1. unfold Eff.get_self at 1. cbn [fst snd].
  destruct (negb (Str.truthy (api_key environ (fst st)))); [eexists _, _; reflexivity|].
  unfold Eff.try_except.
  match goal with
  | |- context [let (_, _) := ?c st in _] => destruct (c st) as [[m|e] st']
  end.
  - eexists _, _; reflexivity.
  - destruct e; eexists _, _; reflexivity.
Qed.

(** The call after the handshake: when the handshake returns, [execute]
    sends one more request, the [tools/call] of the selected operation
    with the arguments of [_build_arguments], and changes nothing else. *)
Theorem execute_sends_one_call (query : string) (count : option Z)
    (self self' : search_tool) (sent sent' : list request) :
  Str.truthy (api_key environ self) = true ->
  handshake (self, sent) = (Ok tt, (self', sent')) ->
  exists message,
    search query count (self, sent)
    = (Ok message,
       (self',
        (sent' ++ [HttpPost (base_url self') (api_key environ self')
                     (ToolsCall (_search_tool_name self')
                        (_build_arguments lower self' query count))])%list)).
Proof.
  intros Hkey Hrun.
  unfold execute. unfold Eff.bind at 1. unfold Eff.get_self at 1. cbn [fst snd].
  rewrite Hkey. cbn [negb]. unfold Eff.try_except.
  unfold Eff.bind at 1. rewrite Hrun.
  unfold Eff.bind at 1. unfold Eff.get_self at 1. cbn [fst snd].
  unfold post. unfold Eff.bind at 1. unfold Eff.send at 1. cbn [fst snd].
  destruct (network sent' _) as [r|e].
  2:{ destruct e; eexists; reflexivity. }
  unfold Eff.raise_for_status. unfold Eff.bind at 1.
  destruct (is_error_status (r_status_code r)); [eexists; reflexivity|].
  unfold Eff.ret at 1. unfold Eff.bind at 1. unfold Eff.lift at 1.
  destruct (response_json r) as [result_data|e].
  2:{ destruct e; eexists; reflexivity. }
  destruct (text_content_of (content_of result_data)) as [text|];
    [|eexists; reflexivity].
  destruct (negb (Str.truthy text)); [eexists; reflexivity|].
  destruct (json_loads_pages text) as [[|pg pages]|]; eexists; reflexivity.
Qed.

(** A handshake that fails ends the call: [execute] returns "Error: "
    and the message of the failure, and sends no [tools/call]. *)
Theorem execute_reports_failed_handshake (query : string) (count : option Z)
    (self self' : search_tool) (sent sent' : list request) (e : exn) :
  _session_initialized self = false ->
  Str.truthy (api_key environ self) = true ->
  handshake (self, sent) = (Raise e, (self', sent')) ->
  search query count (self, sent)
  = (Ok ("Error: " +:+ str_exn e), (self', sent')).
Proof.
  intros Hinit Hkey Hrun.
  pose proof (handshake_post self sent Hinit Hkey) as H.
  rewrite Hrun in H. destruct H as ([m ->] & _).
  unfold execute. unfold Eff.bind at 1. unfold Eff.get_self at 1. cbn [fst snd].
  rewrite Hkey. cbn [negb]. unfold Eff.try_except.
  unfold Eff.bind at 1. rewrite Hrun. reflexivity.
Qed.

End HandshakeFacts.

(** *** Concrete runs of the search tool *)

(** A first call against a server that lists a search operation. *)
Lemma handshake_success_ready_run :
  ready (fst (snd (_ensure_session_initialized Str.ascii_lower ∅ mcp_network
                     http_error (fun _ => "")
                     (mcp_json [tool_named "web_search" schema_query_count] [])
                     (keyed_tool, []))))
  /\ same_configuration keyed_tool
       (fst (snd (_ensure_session_initialized Str.ascii_lower ∅ mcp_network
                    http_error (fun _ => "")
                    (mcp_json [tool_named "web_search" schema_query_count] [])
                    (keyed_tool, []))))
  /\ snd (snd (_ensure_session_initialized Str.ascii_lower ∅ mcp_network
                 http_error (fun _ => "")
                 (mcp_json [tool_named "web_search" schema_query_count] [])
                 (keyed_tool, [])))
     = ([] ++ handshake_posts (base_url keyed_tool) (api_key ∅ keyed_tool))%list.
Proof.
  apply (handshake_success_ready Str.ascii_lower ∅ mcp_network http_error
           (fun _ => "")
           (mcp_json [tool_named "web_search" schema_query_count] [])
           keyed_tool _ [] _).
  - reflexivity.
  - vm_compute. reflexivity.
Defined.

(** A first call against a server that answers 503. *)
Lemma handshake_failure_not_ready_run :
  _session_initialized keyed_tool = false
  /\ _input_schema keyed_tool = _input_schema keyed_tool
  /\ same_configuration keyed_tool keyed_tool
  /\ (is_runtime_error
        (RuntimeError "HTTP error 503: Failed to initialize MCP session")
      \/ (Str.truthy (api_key ∅ keyed_tool) = false
          /\ (exists msg,
                RuntimeError "HTTP error 503: Failed to initialize MCP session"
                = ValueError msg)
          /\ keyed_tool = keyed_tool
          /\ [HttpPost (base_url keyed_tool) "sk-test" Initialize] = [])).
Proof.
  apply (handshake_failure_not_ready Str.ascii_lower ∅ network_unavailable
           http_error (fun _ => "") (mcp_json [] [])
           keyed_tool keyed_tool []
           [HttpPost (base_url keyed_tool) "sk-test" Initialize]
           (RuntimeError "HTTP error 503: Failed to initialize MCP session")).
  - reflexivity.
  - vm_compute. reflexivity.
Defined.

(** The first search against a server that lists a search operation:
    three requests of handshake, then the call. *)
Lemma execute_sends_one_call_run :
  exists message,
    execute Str.ascii_lower ∅ mcp_network http_error (fun _ => "")
      (mcp_json [tool_named "web_search" schema_query_count] [])
      (fun _ => None) "rocq" (Some 3) (keyed_tool, [])
    = (Ok message,
       (set_ready schema_query_count
          (set_search_tool_name (Some "web_search")
             (set_available_tools
                [(Some "web_search", tool_named "web_search" schema_query_count)]
                keyed_tool)),
        (handshake_posts (base_url keyed_tool) "sk-test"
         ++ [HttpPost (base_url keyed_tool) "sk-test"
               (ToolsCall (Some "web_search")
                  (<[ "count" := VInt 3 ]> {[ "query" := VStr "rocq" ]}))])%list)).
Proof.
  destruct (execute_sends_one_call Str.ascii_lower ∅ mcp_network http_error
              (fun _ => "")
              (mcp_json [tool_named "web_search" schema_query_count] [])
              (fun _ => None) "rocq" (Some 3) keyed_tool
              (set_ready schema_query_count
                 (set_search_tool_name (Some "web_search")
                    (set_available_tools
                       [(Some "web_search",
                         tool_named "web_search" schema_query_count)]
                       keyed_tool)))
              [] (handshake_posts (base_url keyed_tool) "sk-test")
              eq_refl) as [message Hrun].
  - vm_compute. reflexivity.
  - exists message. rewrite Hrun. f_equal.
Defined.

(** A search against a server that answers 503: the failure of the
    handshake is the answer. *)
Lemma execute_reports_failed_handshake_run :
  execute Str.ascii_lower ∅ network_unavailable http_error (fun _ => "")
    (mcp_json [] []) (fun _ => None) "rocq" None (keyed_tool, [])
  = (Ok ("Error: " +:+ str_exn
           (RuntimeError "HTTP error 503: Failed to initialize MCP session")),
     (keyed_tool, [HttpPost (base_url keyed_tool) "sk-test" Initialize])).
Proof.
  apply (execute_reports_failed_handshake Str.ascii_lower ∅ network_unavailable
           http_error (fun _ => "") (mcp_json [] []) (fun _ => None)
           "rocq" None keyed_tool keyed_tool []
           [HttpPost (base_url keyed_tool) "sk-test" Initialize]
           (RuntimeError "HTTP error 503: Failed to initialize MCP session")).
  - reflexivity.
  - reflexivity.
  - vm_compute. reflexivity.
Defined.

Section CallFacts.

Variable lower : string -> string.
Variable environ : gmap string string.
Variable network : list request -> request -> result http_response.
Variable is_error_status : Z -> bool.
Variable status_message : http_response -> string.
Variable response_json : http_response -> result rpc_reply.
Variable json_loads_pages : string -> option (list page).

Local Abbreviation search :=
  (execute lower environ network is_error_status status_message
     response_json json_loads_pages).

(** The request of a search on the session [self]. *)
Local Abbreviation call self query count :=
  (HttpPost (base_url self) (api_key environ self)
     (ToolsCall (_search_tool_name self)
        (_build_arguments lower self query count))).

(** On a ready session the handshake is skipped: [execute] is its call. *)
Lemma execute_on_ready_session (query : string) (count : option Z)
    (self : search_tool) (sent : list request) :
  _session_initialized self = true ->
  Str.truthy (api_key environ self) = true ->
  search query count (self, sent)
  = Eff.try_except
      (search_response <- Eff.send network (call self query count) ;;
       Eff.raise_for_status is_error_status status_message search_response ;;;
       result_data <- Eff.lift (response_json search_response) ;;
       match text_content_of (content_of result_data) with
       | None => Eff.ret (no_results query)
       | Some text_content =>
           if negb (Str.truthy text_content) then Eff.ret (no_results query)
           else
             match json_loads_pages text_content with
             | None =>
                 Eff.ret ("Error parsing search results: Could not decode JSON response"
                          +:+ nl +:+ "Raw response: " +:+ text_content)
             | Some [] => Eff.ret (no_results query)
             | Some pages =>
                 Eff.ret (Str.strip (Str.join_lines
                   (("Results for: " +:+ query +:+ nl) :: format_pages 1 pages)))
             end
       end)
      (fun e =>
         match e with
         | HTTPStatusError code _ =>
             Eff.ret ("HTTP error " +:+ pretty code +:+ ": Failed to search the web")
         | RequestError msg => Eff.ret ("Request error: " +:+ msg)
         | _ => Eff.ret ("Error: " +:+ str_exn e)
         end) (self, sent).
Proof.
  intros Hinit Hkey.
  unfold execute. unfold Eff.bind at 1. unfold Eff.get_self at 1. cbn [fst snd].
  rewrite Hkey. cbn [negb]. unfold Eff.try_except.
  unfold Eff.bind at 1. unfold _ensure_session_initialized.
  unfold Eff.bind at 1. unfold Eff.get_self at 1. cbn [fst snd]. rewrite Hinit.
  unfold Eff.ret at 1. unfold Eff.bind at 1. unfold Eff.get_self at 1.
  cbn [fst snd]. reflexivity.
Qed.

(** A status that [raise_for_status] refuses on the call is reported
    with its code; the session stays ready and nothing is retried. *)
Theorem execute_reports_status_of_call (query : string) (count : option Z)
    (self : search_tool) (sent : list request) (r : http_response) :
  _session_initialized self = true ->
  Str.truthy (api_key environ self) = true ->
  network sent (call self query count) = Ok r ->
  is_error_status (r_status_code r) = true ->
  search query count (self, sent)
  = (Ok ("HTTP error " +:+ pretty (r_status_code r) +:+ ": Failed to search the web"),
     (self, (sent ++ [call self query count])%list)).
Proof.
  intros Hinit Hkey Hnet Hstatus.
  rewrite (execute_on_ready_session query count self sent Hinit Hkey).
  unfold Eff.try_except, Eff.raise_for_status.
  unfold Eff.bind at 1. unfold Eff.send at 1. cbn [fst snd]. rewrite Hnet.
  unfold Eff.bind at 1. rewrite Hstatus. reflexivity.
Qed.

(** A text block that is not JSON comes back whole, after the parse
    error: the raw payload is never hidden. *)
Theorem execute_shows_raw_payload (query : string) (count : option Z)
    (self : search_tool) (sent : list request) (r : http_response)
    (reply : rpc_reply) (text : string) :
  _session_initialized self = true ->
  Str.truthy (api_key environ self) = true ->
  network sent (call self query count) = Ok r ->
  is_error_status (r_status_code r) = false ->
  response_json r = Ok reply ->
  text_content_of (content_of reply) = Some text ->
  Str.truthy text = true ->
  json_loads_pages text = None ->
  search query count (self, sent)
  = (Ok ("Error parsing search results: Could not decode JSON response"
         +:+ nl +:+ "Raw response: " +:+ text),
     (self, (sent ++ [call self query count])%list)).
Proof.
  intros Hinit Hkey Hnet Hstatus Hjson Htext Htruthy Hparse.
  rewrite (execute_on_ready_session query count self sent Hinit Hkey).
  unfold Eff.try_except, Eff.raise_for_status.
  unfold Eff.bind at 1. unfold Eff.send at 1. cbn [fst snd]. rewrite Hnet.
  unfold Eff.bind at 1. rewrite Hstatus. unfold Eff.ret at 1.
  unfold Eff.bind at 1. unfold Eff.lift at 1. rewrite Hjson, Htext, Htruthy.
  cbn [negb]. rewrite Hparse. reflexivity.
Qed.

(** No text block, an empty text, or an empty list of pages: the same
    "no results" answer, which names the query. *)
Theorem execute_no_results (query : string) (count : option Z)
    (self : search_tool) (sent : list request) (r : http_response)
    (reply : rpc_reply) :
  _session_initialized self = true ->
  Str.truthy (api_key environ self) = true ->
  network sent (call self query count) = Ok r ->
  is_error_status (r_status_code r) = false ->
  response_json r = Ok reply ->
  Str.truthy_opt (text_content_of (content_of reply)) = false
  \/ (exists text, text_content_of (content_of reply) = Some text
                   /\ json_loads_pages text = Some []) ->
  search query count (self, sent)
  = (Ok ("No search results found for query: " +:+ query),
     (self, (sent ++ [call self query count])%list)).
Proof.
  intros Hinit Hkey Hnet Hstatus Hjson Hnone.
  rewrite (execute_on_ready_session query count self sent Hinit Hkey).
  unfold Eff.try_except, Eff.raise_for_status.
  unfold Eff.bind at 1. unfold Eff.send at 1. cbn [fst snd]. rewrite Hnet.
  unfold Eff.bind at 1. rewrite Hstatus. unfold Eff.ret at 1.
  unfold Eff.bind at 1. unfold Eff.lift at 1. rewrite Hjson.
  destruct Hnone as [Hfalsy|(text & -> & Hpages)].
  - destruct (text_content_of (content_of reply)) as [text|]; [|reflexivity].
    cbn [Str.truthy_opt] in Hfalsy. rewrite Hfalsy. reflexivity.
  - destruct (negb (Str.truthy text)); [reflexivity|]. rewrite Hpages. reflexivity.
Qed.

End CallFacts.

(** The text of a reply is that of its first block of type "text":
    blocks of other types before it are passed over, blocks after it
    are not read. *)
Theorem text_content_is_first_text_block
    (before after : list content_block) (block : content_block) :
  Forall (fun b => block_type b <> Some "text") before ->
  block_type block = Some "text" ->
  text_content_of (before ++ block :: after) = block_text block.
Proof.
  intros Hbefore Hblock. unfold text_content_of.
  induction Hbefore as [|b before Hb _ IH]; cbn [app find].
  - rewrite bool_decide_eq_true_2 by exact Hblock. reflexivity.
  - rewrite bool_decide_eq_false_2 by exact Hb. exact IH.
Qed.

(** Every page is rendered, in order, numbered from [i]: page [j] gives
    the four lines [4j .. 4j+3]. *)
Theorem format_pages_renders_every_page (pages : list page) :
  forall (i j : nat) (item : page),
    pages !! j = Some item ->
    format_pages i pages !! (4 * j)%nat
    = Some (pretty (i + j)%nat +:+ ". " +:+ default "No Title" (page_title item))
    /\ format_pages i pages !! (4 * j + 1)%nat
       = Some ("   URL: " +:+ default "" (page_url item))
    /\ format_pages i pages !! (4 * j + 2)%nat
       = Some ("   Snippet: " +:+ default "" (page_snippet item))
    /\ format_pages i pages !! (4 * j + 3)%nat = Some ""
    /\ List.length (format_pages i pages) = (4 * List.length pages)%nat.
Proof.
  induction pages as [|p pages IH]; intros i j item Hj; [discriminate|].
  assert (List.length (format_pages i (p :: pages))
          = (4 * List.length (p :: pages))%nat) as Hlen.
  { clear. revert i. induction (p :: pages) as [|q l IHl]; intros i; [reflexivity|].
    cbn [format_pages List.length]. rewrite IHl. lia. }
  destruct j as [|j].
  - injection Hj as ->. rewrite Nat.add_0_r. cbn [format_pages].
    repeat split; try reflexivity. exact Hlen.
  - cbn [lookup list_lookup] in Hj.
    destruct (IH (S i) j item Hj) as (H0 & H1 & H2 & H3 & _).
    replace (4 * S j)%nat with (S (S (S (S (4 * j))))) by lia.
    cbn [format_pages Nat.add].
    replace (i + S j)%nat with (S i + j)%nat by lia.
    repeat split; [exact H0|exact H1|exact H2|exact H3|exact Hlen].
Qed.

(** The handshake of a fresh tool against a server that lists no
    operation: the three requests are sent, the call is not, and the
    answer names the failure. *)
Theorem execute_without_tools (lower : string -> string)
    (environ : gmap string string)
    (network : list request -> request -> result http_response)
    (is_error_status : Z -> bool) (status_message : http_response -> string)
    (response_json : http_response -> result rpc_reply)
    (json_loads_pages : string -> option (list page))
    (query : string) (count : option Z)
    (self : search_tool) (sent : list request)
    (r1 r2 r3 : http_response) (reply : rpc_reply) :
  _session_initialized self = false ->
  Str.truthy_opt (_search_tool_name self) = false ->
  _available_tools self = [] ->
  Str.truthy (api_key environ self) = true ->
  network sent (HttpPost (base_url self) (api_key environ self) Initialize)
  = Ok r1 ->
  is_error_status (r_status_code r1) = false ->
  network (sent ++ [HttpPost (base_url self) (api_key environ self) Initialize])%list
    (HttpPost (base_url self) (api_key environ self) NotificationsInitialized)
  = Ok r2 ->
  network ((sent ++ [HttpPost (base_url self) (api_key environ self) Initialize])
           ++ [HttpPost (base_url self) (api_key environ self)
                 NotificationsInitialized])%list
    (HttpPost (base_url self) (api_key environ self) ToolsList)
  = Ok r3 ->
  is_error_status (r_status_code r3) = false ->
  response_json r3 = Ok reply ->
  tools_of reply = [] ->
  execute lower environ network is_error_status status_message response_json
    json_loads_pages query count (self, sent)
  = (Ok "Error: Error initializing MCP session: No web search tool found in the available tools",
     (self, (sent ++ handshake_posts (base_url self) (api_key environ self))%list)).
Proof.
  intros Hinit Hname Havail Hkey H1 Hs1 H2 H3 Hs3 Hjson Htools.
  unfold execute. unfold Eff.bind at 1. unfold Eff.get_self at 1. cbn [fst snd].
  rewrite Hkey. cbn [negb]. unfold Eff.try_except at 1.
  unfold Eff.bind at 1. unfold _ensure_session_initialized.
  unfold Eff.bind at 1. unfold Eff.get_self at 1. cbn [fst snd].
  rewrite Hinit, Hkey. cbn [negb].
  unfold Eff.try_except, post, Eff.raise_for_status.
  unfold Eff.bind at 1. unfold Eff.send at 1. cbn [fst snd]. rewrite H1.
  unfold Eff.bind at 1. rewrite Hs1. unfold Eff.ret at 1.
  unfold Eff.bind at 1. unfold Eff.send at 1. cbn [fst snd]. rewrite H2.
  unfold Eff.bind at 1. unfold Eff.send at 1. cbn [fst snd]. rewrite H3.
  unfold Eff.bind at 1. rewrite Hs3. unfold Eff.ret at 1.
  unfold Eff.bind at 1. unfold Eff.lift at 1. rewrite Hjson, Htools.
  cbn [discover]. unfold Eff.bind at 1. unfold Eff.ret at 1.
  unfold select_tool. unfold Eff.bind at 1. unfold Eff.get_self at 1.
  cbn [fst snd]. rewrite Hname, Havail. cbn [negb andb bool_decide].
  rewrite bool_decide_eq_true_2 by reflexivity. cbn [negb andb].
  unfold Eff.bind at 1. unfold Eff.ret at 1.
  unfold Eff.bind at 1. unfold Eff.get_self at 1. cbn [fst snd].
  rewrite Hname. cbn [negb]. unfold Eff.raise.
  unfold handshake_posts. rewrite <- !app_assoc. reflexivity.
Qed.

Lemma execute_reports_status_of_call_run :
  execute Str.ascii_lower ∅ network_unavailable http_error (fun _ => "")
    (mcp_json [] []) (fun _ => None) "rocq" (Some 3) (ready_tool, [])
  = (Ok ("HTTP error " +:+ pretty 503 +:+ ": Failed to search the web"),
     (ready_tool,
      ([] ++ [HttpPost (base_url ready_tool) (api_key ∅ ready_tool)
                (ToolsCall (_search_tool_name ready_tool)
                   (_build_arguments Str.ascii_lower ready_tool "rocq" (Some 3)))])%list)).
Proof.
  apply (execute_reports_status_of_call Str.ascii_lower ∅ network_unavailable
           http_error (fun _ => "") (mcp_json [] []) (fun _ => None)
           "rocq" (Some 3) ready_tool []
           {| r_url := base_url ready_tool; r_status_code := 503;
              r_content_type := None; r_text := "" |});
    reflexivity.
Defined.

Lemma execute_shows_raw_payload_run :
  execute Str.ascii_lower ∅ mcp_network http_error (fun _ => "")
    (mcp_json [] [image_block; text_block "<html>busy</html>"]) (fun _ => None)
    "rocq" (Some 3) (ready_tool, [])
  = (Ok ("Error parsing search results: Could not decode JSON response"
         +:+ nl +:+ "Raw response: " +:+ "<html>busy</html>"),
     (ready_tool,
      ([] ++ [HttpPost (base_url ready_tool) (api_key ∅ ready_tool)
                (ToolsCall (_search_tool_name ready_tool)
                   (_build_arguments Str.ascii_lower ready_tool "rocq" (Some 3)))])%list)).
Proof.
  apply (execute_shows_raw_payload Str.ascii_lower ∅ mcp_network http_error
           (fun _ => "")
           (mcp_json [] [image_block; text_block "<html>busy</html>"])
           (fun _ => None) "rocq" (Some 3) ready_tool []
           {| r_url := base_url ready_tool; r_status_code := 200;
              r_content_type := Some "application/json"; r_text := "tools/call" |}
           (ReplyContent [image_block; text_block "<html>busy</html>"]));
    reflexivity.
Defined.

Lemma execute_no_results_run :
  execute Str.ascii_lower ∅ mcp_network http_error (fun _ => "")
    (mcp_json [] [image_block]) (fun _ => None) "rocq" None (ready_tool, [])
  = (Ok ("No search results found for query: " +:+ "rocq"),
     (ready_tool,
      ([] ++ [HttpPost (base_url ready_tool) (api_key ∅ ready_tool)
                (ToolsCall (_search_tool_name ready_tool)
                   (_build_arguments Str.ascii_lower ready_tool "rocq" None))])%list)).
Proof.
  apply (execute_no_results Str.ascii_lower ∅ mcp_network http_error
           (fun _ => "") (mcp_json [] [image_block]) (fun _ => None)
           "rocq" None ready_tool []
           {| r_url := base_url ready_tool; r_status_code := 200;
              r_content_type := Some "application/json"; r_text := "tools/call" |}
           (ReplyContent [image_block])); try reflexivity.
  left. reflexivity.
Defined.

Lemma text_content_is_first_text_block_run :
  text_content_of ([image_block] ++ text_block "first" :: [text_block "second"])
  = block_text (text_block "first").
Proof.
  apply (text_content_is_first_text_block [image_block] [text_block "second"]
           (text_block "first")).
  - repeat constructor. discriminate.
  - reflexivity.
Defined.

Lemma format_pages_renders_every_page_run :
  format_pages 1 [page_of "A" "https://a.example" "first";
                  {| page_title := None; page_url := None; page_snippet := None |}]
    !! (4 * 1)%nat
  = Some (pretty (1 + 1)%nat +:+ ". " +:+ default "No Title" None)
  /\ format_pages 1 [page_of "A" "https://a.example" "first";
                     {| page_title := None; page_url := None; page_snippet := None |}]
       !! (4 * 1 + 1)%nat
     = Some ("   URL: " +:+ default "" None)
  /\ format_pages 1 [page_of "A" "https://a.example" "first";
                     {| page_title := None; page_url := None; page_snippet := None |}]
       !! (4 * 1 + 2)%nat
     = Some ("   Snippet: " +:+ default "" None)
  /\ format_pages 1 [page_of "A" "https://a.example" "first";
                     {| page_title := None; page_url := None; page_snippet := None |}]
       !! (4 * 1 + 3)%nat
     = Some ""
  /\ List.length
       (format_pages 1 [page_of "A" "https://a.example" "first";
                        {| page_title := None; page_url := None;
                           page_snippet := None |}])
     = (4 * List.length
              [page_of "A" "https://a.example" "first";
               {| page_title := None; page_url := None; page_snippet := None |}])%nat.
Proof.
  apply (format_pages_renders_every_page
           [page_of "A" "https://a.example" "first";
            {| page_title := None; page_url := None; page_snippet := None |}]
           1%nat 1%nat
           {| page_title := None; page_url := None; page_snippet := None |}).
  reflexivity.
Defined.

Lemma execute_without_tools_run :
  execute Str.ascii_lower ∅ mcp_network http_error (fun _ => "")
    (mcp_json [] []) (fun _ => None) "rocq" None (keyed_tool, [])
  = (Ok "Error: Error initializing MCP session: No web search tool found in the available tools",
     (keyed_tool,
      ([] ++ handshake_posts (base_url keyed_tool) (api_key ∅ keyed_tool))%list)).
Proof.
  apply (execute_without_tools Str.ascii_lower ∅ mcp_network http_error
           (fun _ => "") (mcp_json [] []) (fun _ => None) "rocq" None
           keyed_tool []
           {| r_url := base_url keyed_tool; r_status_code := 200;
              r_content_type := Some "application/json"; r_text := "" |}
           {| r_url := base_url keyed_tool; r_status_code := 200;
              r_content_type := Some "application/json"; r_text := "" |}
           {| r_url := base_url keyed_tool; r_status_code := 200;
              r_content_type := Some "application/json"; r_text := "tools/list" |}
           (ReplyTools [])); reflexivity.
Defined.

(** * Further properties of the argument resolution *)

Lemma first_such_in (p : string -> bool) (l : list string) (k : string) :
  first_such p l k -> In k l.
Proof.
  intros (before & after & -> & _ & _). apply in_or_app. right. now left.
Qed.

Section MoreArgumentFacts.

Variable lower : string -> string.

(** The object built, in closed form: the entry of the query, and over
    it the entry of the count when a count key is found. *)
Lemma build_arguments_cases (self : search_tool) (query : string)
    (count : option Z) :
  exists kq,
    resolves_query lower (_input_schema self) kq
    /\ ((exists kc, resolves_count lower (_input_schema self) kc
                    /\ _build_arguments lower self query count
                       = <[ kc := VInt (count_arg_value self count) ]>
                           {[ kq := VStr query ]})
        \/ _build_arguments lower self query count = {[ kq := VStr query ]}).
Proof.
  destruct (assign_query_resolves lower self query) as (kq & Hq & Hres).
  exists kq. split; [exact Hres|]. unfold _build_arguments. rewrite Hq.
  destruct (assign_count_cases lower self count {[ kq := VStr query ]})
    as [(kc & Hkc & ->)|(_ & _ & ->)]; [left; eauto|right; reflexivity].
Qed.

(** Whatever the caller asks for, an integer of the object built lies
    between 1 and 10. *)
Theorem built_count_within_bounds (self : search_tool) (query : string)
    (count : option Z) (k : string) (n : Z) :
  _build_arguments lower self query count !! k = Some (VInt n) ->
  1 <= n <= 10.
Proof.
  destruct (build_arguments_cases self query count)
    as (kq & _ & [(kc & _ & ->)| ->]).
  - destruct (decide (kc = k)) as [->|Hne].
    + rewrite lookup_insert_eq. intros [= <-]. apply count_arg_value_range.
    + rewrite lookup_insert_ne by exact Hne.
      destruct (decide (kq = k)) as [->|Hne'].
      * rewrite lookup_singleton_eq. discriminate.
      * rewrite lookup_singleton_ne by exact Hne'. discriminate.
  - destruct (decide (kq = k)) as [->|Hne'].
    + rewrite lookup_singleton_eq. discriminate.
    + rewrite lookup_singleton_ne by exact Hne'. discriminate.
Qed.

(** When one key is the choice of both rules, the count is written over
    the query: the object built is the count alone and the query string
    is not sent. *)
Theorem query_lost_on_shared_key (self : search_tool) (query : string)
    (count : option Z) (k : string) :
  resolves_query lower (_input_schema self) k ->
  resolves_count lower (_input_schema self) k ->
  _build_arguments lower self query count
  = {[ k := VInt (count_arg_value self count) ]}.
Proof.
  intros Hq Hc.
  destruct (build_arguments_cases self query count)
    as (kq & Hkq & [(kc & Hkc & ->)| Hnone]).
  - rewrite (resolves_count_unique lower _ _ _ Hkc Hc).
    assert (kq = k) as ->.
    { unfold resolves_query, none_such in *.
      destruct Hkq as [H1|[(N1 & H1)|(N1 & N1' & ->)]];
        destruct Hq as [H2|[(N2 & H2)|(N2 & N2' & ->)]];
        try (apply first_such_find in H1; apply first_such_find in H2; congruence);
        try (apply first_such_exists in H1; congruence);
        try (apply first_such_exists in H2; congruence);
        reflexivity. }
    rewrite insert_singleton_eq. reflexivity.
  - exfalso. unfold _build_arguments, assign_count in Hnone.
    assert (find (count_like lower) (schema_props_keys self) = None
            /\ find (count_like lower) (required (_input_schema self)) = None)
      as [Hp Hr].
    { destruct (find (count_like lower) (schema_props_keys self)) as [kc|] eqn:Hp.
      - exfalso. apply (f_equal (fun m => m !! kc)) in Hnone.
        rewrite lookup_insert_eq in Hnone.
        destruct (decide (kq = kc)) as [->|Hne].
        + rewrite lookup_singleton_eq in Hnone. discriminate.
        + rewrite lookup_singleton_ne in Hnone by exact Hne. discriminate.
      - split; [reflexivity|].
        destruct (find (count_like lower) (required (_input_schema self)))
          as [kc|] eqn:Hr; [|reflexivity].
        exfalso. apply (f_equal (fun m => m !! kc)) in Hnone.
        rewrite lookup_insert_eq in Hnone.
        destruct (decide (kq = kc)) as [->|Hne].
        + rewrite lookup_singleton_eq in Hnone. discriminate.
        + rewrite lookup_singleton_ne in Hnone by exact Hne. discriminate. }
    apply find_none_such in Hp, Hr. unfold none_such, schema_props_keys in *.
    destruct Hc as [H|[_ H]]; apply first_such_exists in H; congruence.
Qed.

(** The object built has one or two entries, and each key is a key of
    the schema's properties, an entry of its required list, or the
    literal "query". *)
Theorem built_keys_come_from_schema (self : search_tool) (query : string)
    (count : option Z) :
  (1 <= size (_build_arguments lower self query count) <= 2)%nat
  /\ forall k, is_Some (_build_arguments lower self query count !! k) ->
       k = "query" \/ In k (schema_props_keys self)
       \/ In k (required (_input_schema self)).
Proof.
  assert (forall kq, resolves_query lower (_input_schema self) kq ->
            kq = "query" \/ In kq (schema_props_keys self)
            \/ In kq (required (_input_schema self))) as Hq.
  { intros kq [H|[(_ & H)|(_ & _ & ->)]]; [| |auto];
      apply first_such_in in H; auto. }
  assert (forall kc, resolves_count lower (_input_schema self) kc ->
            In kc (schema_props_keys self)
            \/ In kc (required (_input_schema self))) as Hc.
  { intros kc [H|(_ & H)]; apply first_such_in in H; auto. }
  destruct (build_arguments_cases self query count)
    as (kq & Hkq & [(kc & Hkc & ->)| ->]).
  - split.
    + destruct (decide (kc = kq)) as [->|Hne].
      * rewrite insert_singleton_eq, map_size_singleton. lia.
      * rewrite map_size_insert_None, map_size_singleton; [lia|].
        now apply lookup_singleton_ne.
    + intros k [v Hv]. destruct (decide (kc = k)) as [->|Hne].
      * right. now apply Hc.
      * rewrite lookup_insert_ne in Hv by exact Hne.
        destruct (decide (kq = k)) as [->|Hne']; [now apply Hq|].
        rewrite lookup_singleton_ne in Hv by exact Hne'. discriminate.
  - split; [rewrite map_size_singleton; lia|].
    intros k [v Hv]. destruct (decide (kq = k)) as [->|Hne']; [now apply Hq|].
    rewrite lookup_singleton_ne in Hv by exact Hne'. discriminate.
Qed.

End MoreArgumentFacts.

Lemma count_field_value_run :
  _build_arguments Str.ascii_lower (tool_with schema_search_query)
    "test query" (Some 25) !! "result_count"
  = Some (VInt (spec_count_value (Some 25)
                  (max_results (tool_with schema_search_query)))).
Proof.
  apply (count_field_value Str.ascii_lower (tool_with schema_search_query)
           "test query" (Some 25) "result_count").
  - discriminate.
  - left. exists ["search_query"], []. repeat split.
Defined.

Lemma built_count_within_bounds_run : 1 <= 10 <= 10.
Proof.
  apply (built_count_within_bounds Str.ascii_lower (tool_with schema_query_count)
           "test query" (Some 99) "count" 10).
  vm_compute. reflexivity.
Defined.

Lemma query_lost_on_shared_key_run :
  _build_arguments Str.ascii_lower (tool_with schema_query_limit)
    "test query" (Some 3)
  = {[ "query_limit" := VInt (count_arg_value (tool_with schema_query_limit) (Some 3)) ]}.
Proof.
  apply (query_lost_on_shared_key Str.ascii_lower (tool_with schema_query_limit)
           "test query" (Some 3) "query_limit").
  - left. exists [], []. repeat split.
  - left. exists [], []. repeat split.
Defined.

(** * Further properties of the fetch tool *)

(** A URL is accepted only when it parses with the scheme http or https
    and a network location that is not empty; the message is then
    empty. *)
Theorem validate_accepts_only_http_with_host
    (netloc_checks : string -> option string) (url message : string) :
  Url._validate_url netloc_checks url = (true, message) ->
  message = ""
  /\ exists p, Url.urlparse netloc_checks url = Ok p
               /\ (Url.scheme p = "http" \/ Url.scheme p = "https")
               /\ Url.netloc p <> "".
Proof.
  unfold Url._validate_url.
  destruct (Url.urlparse netloc_checks url) as [p|e]; [|discriminate].
  destruct (Url.allowed_scheme (Url.scheme p)) eqn:Hs; cbn [negb]; [|discriminate].
  destruct (Str.truthy (Url.netloc p)) eqn:Hn; cbn [negb]; [|discriminate].
  intros [= <-]. split; [reflexivity|]. exists p. split; [reflexivity|]. split.
  - unfold Url.allowed_scheme in Hs. apply orb_true_iff in Hs.
    destruct Hs as [H|H]; apply String.eqb_eq in H; auto.
  - intros E. rewrite E in Hn. discriminate.
Qed.

Lemma validate_accepts_only_http_with_host_run :
  "" = ""
  /\ exists p, Url.urlparse (fun _ => None) "HTTPS://Example.com:8080/a?b#c" = Ok p
               /\ (Url.scheme p = "http" \/ Url.scheme p = "https")
               /\ Url.netloc p <> "".
Proof.
  apply (validate_accepts_only_http_with_host (fun _ => None)
           "HTTPS://Example.com:8080/a?b#c" "").
  vm_compute. reflexivity.
Defined.

Module SliceFacts.

Lemma take_drop (n : nat) (s : string) : s = Str.take n s +:+ Str.drop n s.
Proof.
  revert s. induction n as [|n IH]; intros [|c s]; try reflexivity.
  cbn [Str.take Str.drop].
  change (String c (Str.take n s) +:+ Str.drop n s)
    with (String c (Str.take n s +:+ Str.drop n s)).
  f_equal. apply IH.
Qed.

(** [s[:stop]] is a prefix of [s], whatever the sign of [stop]. *)
Lemma slice_to_prefix (stop : Z) (s : string) :
  exists rest, s = Str.slice_to stop s +:+ rest.
Proof.
  unfold Str.slice_to. destruct (stop <? 0); eexists; apply take_drop.
Qed.

End SliceFacts.

Section MoreFetchFacts.

Variable lower : string -> string.
Variable unescape : string -> string.
Variable netloc_checks : string -> option string.
Variable network : list request -> request -> result http_response.
Variable is_error_status : Z -> bool.
Variable status_message : http_response -> string.
Variable json_pretty : http_response -> result string.
Variable doc_summary : string -> result string.
Variable doc_title : string -> result string.
Variable _to_markdown : string -> string.

Local Abbreviation run :=
  (fetch_execute lower unescape netloc_checks network is_error_status
     status_message json_pretty doc_summary doc_title _to_markdown).
Local Abbreviation extracted :=
  (extract lower unescape json_pretty doc_summary doc_title _to_markdown).


(** Whatever the budget, negative included, the text returned by a
    fetch that succeeds is a prefix of the extracted text, and [length]
    is the length of the text returned. *)
Theorem fetch_text_is_prefix (self : fetch_tool)
    (url extractMode : string) (maxChars : option Z)
    (tool : fetch_tool) (sent : list request) (message : string)
    (r : http_response) (text extractor : string) :
  Url._validate_url netloc_checks url = (true, message) ->
  network sent (HttpGet url) = Ok r ->
  is_error_status (r_status_code r) = false ->
  extracted r extractMode = Ok (text, extractor) ->
  exists (returned rest : string) (out : list (string * json)),
    fst (run self url extractMode maxChars (tool, sent)) = Ok out
    /\ Dict.get "text" out = Some (JStr returned)
    /\ Dict.get "length" out = Some (JInt (Str.len returned))
    /\ Dict.get "extractor" out = Some (JStr extractor)
    /\ text = returned +:+ rest.
Proof.
  intros Hv Hnet Hstatus Hext.
  rewrite (fetch_accepted lower unescape netloc_checks network is_error_status
             status_message json_pretty doc_summary doc_title _to_markdown
             self url extractMode maxChars tool sent message Hv).
  unfold after_validation. rewrite Hnet, Hstatus, Hext. cbn [fst].
  unfold result_object.
  destruct (Str.len text >? effective_max_chars self maxChars).
  - destruct (SliceFacts.slice_to_prefix (effective_max_chars self maxChars) text)
      as [rest Hrest].
    exists (Str.slice_to (effective_max_chars self maxChars) text), rest.
    eexists. split; [reflexivity|]. repeat split; try reflexivity. exact Hrest.
  - exists text, "". eexists. split; [reflexivity|].
    repeat split; try reflexivity.
    clear. induction text as [|c t IH]; [reflexivity|].
    change (String c t +:+ "") with (String c (t +:+ "")). now rewrite <- IH.
Qed.

End MoreFetchFacts.

Lemma fetch_text_is_prefix_run :
  exists (returned rest : string) (out : list (string * json)),
    fst (fetch_page "text/plain" "hello" default_fetch_tool
           "https://example.com/page" "text" (Some (-2)) (default_fetch_tool, []))
    = Ok out
    /\ Dict.get "text" out = Some (JStr returned)
    /\ Dict.get "length" out = Some (JInt (Str.len returned))
    /\ Dict.get "extractor" out = Some (JStr "raw")
    /\ "hello" = returned +:+ rest.
Proof.
  apply (fetch_text_is_prefix Str.ascii_lower Html.unescape (fun _ => None)
           (network_page "text/plain" "hello") http_error (fun _ => "status error")
           (fun r => Ok (r_text r)) (fun html => Ok html) (fun _ => Ok "")
           (_strip_tags Html.unescape) default_fetch_tool
           "https://example.com/page" "text" (Some (-2)) default_fetch_tool [] ""
           {| r_url := "https://example.com/page"; r_status_code := 200;
              r_content_type := Some "text/plain"; r_text := "hello" |}
           "hello" "raw"); reflexivity.
Defined.

(** * Further properties of the text helpers *)

Module NormFacts.

Lemma newline_not_blank (c : ascii) :
  Ascii.eqb c "010" = true -> Norm.is_blank c = false.
Proof. intros ->%Ascii.eqb_eq. reflexivity. Qed.

Lemma blanks_ok_weaken (s : string) : blanks_ok true s -> blanks_ok false s.
Proof.
  destruct s as [|c s]; [auto|]. cbn [blanks_ok].
  destruct (Norm.is_blank c); [|auto]. intros (_ & H & _). discriminate.
Qed.

Lemma collapse_blanks_ok (s : string) :
  forall p, blanks_ok p (Norm.collapse_blanks p s).
Proof.
  induction s as [|c s IH]; intros p; [exact I|]. cbn [Norm.collapse_blanks].
  destruct (Norm.is_blank c) eqn:Hc.
  - destruct p; [apply IH|]. cbn [blanks_ok].
    change (Norm.is_blank " ") with true. cbv iota. auto.
  - cbn [blanks_ok]. rewrite Hc. apply IH.
Qed.

Lemma collapse_blanks_fixed (s : string) :
  forall p, blanks_ok p s -> Norm.collapse_blanks p s = s.
Proof.
  induction s as [|c s IH]; intros p; [reflexivity|].
  cbn [blanks_ok Norm.collapse_blanks].
  destruct (Norm.is_blank c).
  - intros (-> & -> & H). now rewrite IH.
  - intros H. now rewrite IH.
Qed.

Lemma squeeze_keeps_blanks_ok (s : string) :
  forall p n, (n > 0 -> p = false)%nat ->
    blanks_ok p s -> blanks_ok p (Norm.squeeze_newlines n s).
Proof.
  induction s as [|c s IH]; intros p n Hn; [auto|].
  cbn [blanks_ok Norm.squeeze_newlines].
  destruct (Ascii.eqb c "010") eqn:Hnl.
  - rewrite (newline_not_blank c Hnl). intros H.
    destruct (Nat.ltb_spec n 2) as [Hlt|Hge].
    + cbn [blanks_ok]. rewrite (newline_not_blank c Hnl).
      apply IH; [auto|exact H].
    + rewrite Hn by lia. apply IH; [auto|exact H].
  - destruct (Norm.is_blank c) eqn:Hc; cbn [blanks_ok]; rewrite Hc.
    + intros (-> & -> & H). repeat split. apply IH; [lia|exact H].
    + intros H. apply IH; [lia|exact H].
Qed.

Lemma lines_ok_weaken (s : string) :
  forall n m, (m <= n)%nat -> lines_ok n s -> lines_ok m s.
Proof.
  destruct s as [|c s]; intros n m Hle; [auto|]. cbn [lines_ok].
  destruct (Ascii.eqb c "010"); [|auto]. intros [Hn H]. split; [lia|].
  revert H. clear Hn. revert n m Hle.
  induction s as [|d s IH]; intros n m Hle; [auto|]. cbn [lines_ok].
  destruct (Ascii.eqb d "010"); [|auto]. intros [Hn H]. split; [lia|].
  apply (IH (S n) (S m)); [lia|exact H].
Qed.

Lemma squeeze_lines_ok (s : string) :
  forall n, lines_ok (Nat.min n 2) (Norm.squeeze_newlines n s).
Proof.
  induction s as [|c s IH]; intros n; [exact I|].
  cbn [Norm.squeeze_newlines].
  destruct (Ascii.eqb c "010") eqn:Hnl.
  - destruct (Nat.ltb_spec n 2) as [Hlt|Hge].
    + cbn [lines_ok]. rewrite Hnl. replace (Nat.min n 2) with n by lia.
      split; [exact Hlt|]. specialize (IH (S n)).
      now replace (Nat.min (S n) 2) with (S n) in IH by lia.
    + specialize (IH (S n)).
      replace (Nat.min (S n) 2) with 2%nat in IH by lia.
      now replace (Nat.min n 2) with 2%nat by lia.
  - cbn [lines_ok]. rewrite Hnl. apply (IH 0%nat).
Qed.

Lemma squeeze_fixed (s : string) :
  forall n, lines_ok n s -> Norm.squeeze_newlines n s = s.
Proof.
  induction s as [|c s IH]; intros n; [reflexivity|].
  cbn [lines_ok Norm.squeeze_newlines].
  destruct (Ascii.eqb c "010").
  - intros [Hn H]. apply Nat.ltb_lt in Hn. rewrite Hn. now rewrite IH.
  - intros H. now rewrite IH.
Qed.

(** Both forms pass to what [strip] keeps. *)
Lemma blanks_ok_lstrip (s : string) :
  forall p, blanks_ok p s -> blanks_ok false (Str.lstrip s).
Proof.
  induction s as [|c s IH]; intros p; [auto|]. cbn [Str.lstrip].
  destruct (Str.is_space c).
  - cbn [blanks_ok]. destruct (Norm.is_blank c).
    + intros (_ & _ & H). now apply (IH true).
    + apply IH.
  - destruct p; [apply blanks_ok_weaken|auto].
Qed.

Lemma blanks_ok_app_l (x y : string) :
  forall p, blanks_ok p (x +:+ y) -> blanks_ok p x.
Proof.
  induction x as [|c x IH]; intros p; [intros _; exact I|].
  change (String c x +:+ y) with (String c (x +:+ y)). cbn [blanks_ok].
  destruct (Norm.is_blank c).
  - intros (H1 & H2 & H3). repeat split; auto.
  - apply IH.
Qed.

Lemma lines_ok_lstrip (s : string) :
  forall n, lines_ok n s -> lines_ok 0 (Str.lstrip s).
Proof.
  induction s as [|c s IH]; intros n; [auto|]. cbn [Str.lstrip].
  destruct (Str.is_space c).
  - cbn [lines_ok]. destruct (Ascii.eqb c "010").
    + intros [_ H]. now apply (IH (S n)).
    + apply IH.
  - apply lines_ok_weaken. lia.
Qed.

Lemma lines_ok_app_l (x y : string) :
  forall n, lines_ok n (x +:+ y) -> lines_ok n x.
Proof.
  induction x as [|c x IH]; intros n; [intros _; exact I|].
  change (String c x +:+ y) with (String c (x +:+ y)). cbn [lines_ok].
  destruct (Ascii.eqb c "010").
  - intros [H1 H2]. split; auto.
  - apply IH.
Qed.

Lemma normalize_forms (s : string) :
  blanks_ok false (_normalize s) /\ lines_ok 0 (_normalize s).
Proof.
  unfold _normalize, Str.strip.
  set (t := Norm.squeeze_newlines 0 (Norm.collapse_blanks false s)).
  assert (blanks_ok false t) as Hb.
  { apply squeeze_keeps_blanks_ok; [lia|apply collapse_blanks_ok]. }
  assert (lines_ok 0 t) as Hl by apply (squeeze_lines_ok _ 0%nat).
  destruct (StripFacts.rstrip_prefix (Str.lstrip t)) as [w Hw].
  split.
  - apply (blanks_ok_app_l _ w). rewrite <- Hw. now apply (blanks_ok_lstrip t false).
  - apply (lines_ok_app_l _ w). rewrite <- Hw. now apply (lines_ok_lstrip t 0%nat).
Qed.

Lemma blanks_ok_no_tab (s : string) :
  forall p, blanks_ok p s -> Str.has_char "009" s = false.
Proof.
  induction s as [|c s IH]; intros p; [reflexivity|]. cbn [blanks_ok Str.has_char].
  destruct (Norm.is_blank c) eqn:Hc.
  - intros (-> & _ & H). rewrite (IH true H). reflexivity.
  - intros H. rewrite (IH false H).
    unfold Norm.is_blank in Hc. apply orb_false_elim in Hc as [_ Hc].
    rewrite Ascii.eqb_sym, Hc. reflexivity.
Qed.

Lemma blanks_ok_no_space_next (s : string) :
  blanks_ok true s -> String.prefix " " s = false.
Proof.
  destruct s as [|c s]; [reflexivity|]. cbn [blanks_ok String.prefix].
  destruct (Norm.is_blank c) eqn:Hc; [intros (_ & H & _); discriminate|].
  intros _. destruct (ascii_dec " " c) as [<-|]; [discriminate|reflexivity].
Qed.

Lemma blanks_ok_no_double (s : string) :
  forall p, blanks_ok p s -> Str.contains "  " s = false.
Proof.
  induction s as [|c s IH]; intros p; [reflexivity|].
  cbn [blanks_ok Str.contains String.prefix].
  destruct (Norm.is_blank c) eqn:Hc.
  - intros (-> & _ & H). rewrite (IH true H).
    destruct (ascii_dec " " " "); [|reflexivity].
    now rewrite (blanks_ok_no_space_next s H).
  - intros H. rewrite (IH false H).
    destruct (ascii_dec " " c) as [<-|]; [discriminate|reflexivity].
Qed.

Lemma prefix_three_newlines (s : string) :
  String.prefix three_newlines s = true ->
  exists rest, s = String "010" (String "010" (String "010" rest)).
Proof.
  unfold three_newlines.
  destruct s as [|c1 [|c2 [|c3 rest]]]; cbn [String.prefix];
    repeat (destruct (ascii_dec _ _) as [<-|]; try discriminate);
    try discriminate.
  intros _. now exists rest.
Qed.

Lemma lines_ok_no_triple (s : string) :
  forall n, lines_ok n s -> Str.contains three_newlines s = false.
Proof.
  induction s as [|c s IH]; intros n H; [reflexivity|].
  cbn [Str.contains].
  destruct (String.prefix three_newlines (String c s)) eqn:Hp.
  - exfalso. destruct (prefix_three_newlines _ Hp) as [rest E].
    rewrite E in H. cbn in H. lia.
  - cbn [orb]. cbn [lines_ok] in H.
    destruct (Ascii.eqb c "010"); [destruct H as [_ H]|]; eapply IH; exact H.
Qed.

End NormFacts.

(** [_normalize] is idempotent: normalised text has single spaces only,
    runs of at most two line feeds and no space at either end, and a
    second pass finds nothing to change. *)
Theorem normalize_idempotent (s : string) :
  _normalize (_normalize s) = _normalize s.
Proof.
  destruct (NormFacts.normalize_forms s) as [Hb Hl].
  unfold _normalize at 1.
  rewrite (NormFacts.collapse_blanks_fixed _ false Hb).
  rewrite (NormFacts.squeeze_fixed _ 0%nat Hl).
  unfold _normalize. apply StripFacts.strip_idempotent.
Qed.

(** Normalised text holds no tab, no two spaces in a row and no three
    line feeds in a row, and neither starts nor ends with a space. *)
Theorem normalize_output_form (s : string) :
  Str.has_char "009" (_normalize s) = false
  /\ Str.contains "  " (_normalize s) = false
  /\ Str.contains three_newlines (_normalize s) = false
  /\ Str.strip (_normalize s) = _normalize s.
Proof.
  destruct (NormFacts.normalize_forms s) as [Hb Hl].
  split; [exact (NormFacts.blanks_ok_no_tab _ false Hb)|].
  split; [exact (NormFacts.blanks_ok_no_double _ false Hb)|].
  split; [exact (NormFacts.lines_ok_no_triple _ 0%nat Hl)|].
  unfold _normalize. apply StripFacts.strip_idempotent.
Qed.

Example normalize_run :
  _normalize (String "009" " a " +:+ String "009" (String "009" "b")
              +:+ String "010" (String "010" (String "010" (String "010" "c  "))))
  = "a b" +:+ String "010" (String "010" "c").
Proof. vm_compute. reflexivity. Qed.

Module PlainFacts.

(** Text without ["<"] holds no tag. *)
Lemma tag_free_without_lt (s : string) :
  Str.has_char "<" s = false -> free Re.tag_match s.
Proof.
  induction s as [|c s IH]; [intros _; exact I|]. cbn [Str.has_char free].
  intros [Hc Hs]%orb_false_elim. split; [|auto].
  unfold Re.tag_match. rewrite Ascii.eqb_sym, Hc. reflexivity.
Qed.

End PlainFacts.

Section MoreStripFacts.

Variable unescape : string -> string.
Hypothesis unescape_plain : forall t, Str.has_char "&" t = false -> unescape t = t.

(** On text without ["&"], what [_strip_tags] returns holds no tag and
    no script or style block: nothing of the three patterns is left. *)
Theorem strip_tags_leaves_no_tag (s : string) :
  Str.has_char "&" s = false ->
  free Re.tag_match (_strip_tags unescape s)
  /\ free Re.script_match (_strip_tags unescape s)
  /\ free Re.style_match (_strip_tags unescape s).
Proof.
  intros Hs. unfold _strip_tags.
  set (t := Re.sub_del Re.tag_match 0
              (Re.sub_del Re.style_match 0 (Re.sub_del Re.script_match 0 s))).
  assert (Str.has_char "&" t = false) as Ht
    by now repeat apply ReFacts.has_char_sub_del.
  rewrite (unescape_plain t Ht).
  assert (free Re.tag_match (Str.strip t)) as Hfree
    by apply StripFacts.tag_free_strip, ReFacts.tag_free_sub_del.
  split; [exact Hfree|]. split.
  - now apply (BlockFacts.block_free "<script" "/script>" 6).
  - now apply (BlockFacts.block_free "<style" "/style>" 5).
Qed.

(** Text without ["<"] and without ["&"] is only trimmed. *)
Theorem strip_tags_keeps_plain_text (s : string) :
  Str.has_char "<" s = false ->
  Str.has_char "&" s = false ->
  _strip_tags unescape s = Str.strip s.
Proof.
  intros Hlt Hamp. unfold _strip_tags.
  pose proof (PlainFacts.tag_free_without_lt s Hlt) as Hfree.
  rewrite (ReFacts.sub_del_free Re.script_match s)
    by now apply (BlockFacts.block_free "<script" "/script>" 6).
  rewrite (ReFacts.sub_del_free Re.style_match s)
    by now apply (BlockFacts.block_free "<style" "/style>" 5).
  rewrite (ReFacts.sub_del_free Re.tag_match s Hfree).
  now rewrite (unescape_plain s Hamp).
Qed.

End MoreStripFacts.

Lemma unescape_plain_text (t : string) :
  Str.has_char "&" t = false -> Html.unescape t = t.
Proof. intros H. unfold Html.unescape. now rewrite H. Qed.

Lemma strip_tags_leaves_no_tag_run :
  free Re.tag_match
    (_strip_tags Html.unescape "<div><p>1 < 2</p><style>p{}</style></div>")
  /\ free Re.script_match
       (_strip_tags Html.unescape "<div><p>1 < 2</p><style>p{}</style></div>")
  /\ free Re.style_match
       (_strip_tags Html.unescape "<div><p>1 < 2</p><style>p{}</style></div>").
Proof.
  apply (strip_tags_leaves_no_tag Html.unescape unescape_plain_text
           "<div><p>1 < 2</p><style>p{}</style></div>").
  reflexivity.
Defined.

Lemma strip_tags_keeps_plain_text_run :
  _strip_tags Html.unescape "  2 > 1, said the parser  "
  = Str.strip "  2 > 1, said the parser  ".
Proof.
  apply (strip_tags_keeps_plain_text Html.unescape unescape_plain_text
           "  2 > 1, said the parser  "); reflexivity.
Defined.

(** * Further properties of the session *)

Section RetryFacts.

Variable lower : string -> string.
Variable environ : gmap string string.
Variable network : list request -> request -> result http_response.
Variable is_error_status : Z -> bool.
Variable status_message : http_response -> string.
Variable response_json : http_response -> result rpc_reply.

Local Abbreviation handshake :=
  (_ensure_session_initialized lower environ network is_error_status
     status_message response_json).

Lemma handshake_skipped (self : search_tool) (sent : list request) :
  _session_initialized self = true ->
  handshake (self, sent) = (Ok tt, (self, sent)).
Proof.
  intros Hinit. unfold _ensure_session_initialized.
  unfold Eff.bind at 1. unfold Eff.get_self at 1. cbn [fst snd].
  rewrite Hinit. reflexivity.
Qed.

Lemma api_key_same_configuration (a b : search_tool) :
  same_configuration a b -> api_key environ a = api_key environ b.
Proof. intros (H & _ & _). unfold api_key. now rewrite H. Qed.

(** The handshake happens once: after one that returned, a further one
    returns at once, sends nothing and changes nothing. *)
Theorem handshake_idempotent (self self' : search_tool)
    (sent sent' later : list request) :
  handshake (self, sent) = (Ok tt, (self', sent')) ->
  handshake (self', later) = (Ok tt, (self', later)).
Proof.
  intros Hrun. apply handshake_skipped.
  destruct (_session_initialized self) eqn:Hinit.
  - rewrite (handshake_skipped self sent Hinit) in Hrun.
    injection Hrun as <- _. exact Hinit.
  - destruct (Str.truthy (api_key environ self)) eqn:Hkey.
    + pose proof (handshake_post lower environ network is_error_status
                    status_message response_json self sent Hinit Hkey) as H.
      rewrite Hrun in H. destruct H as ((Hready & _) & _). exact Hready.
    + unfold _ensure_session_initialized in Hrun.
      unfold Eff.bind at 1 in Hrun. unfold Eff.get_self at 1 in Hrun.
      cbn [fst snd] in Hrun. rewrite Hinit, Hkey in Hrun. discriminate.
Qed.

(** A handshake that failed is tried again by the next call: with the
    credential still there, the next handshake starts by sending
    [initialize] again. *)
Theorem failed_handshake_is_retried (self self' : search_tool)
    (sent sent' later : list request) (e : exn) :
  _session_initialized self = false ->
  Str.truthy (api_key environ self) = true ->
  handshake (self, sent) = (Raise e, (self', sent')) ->
  exists more,
    snd (snd (handshake (self', later)))
    = (later ++ HttpPost (base_url self) (api_key environ self) Initialize
         :: more)%list.
Proof.
  intros Hinit Hkey Hrun.
  pose proof (handshake_post lower environ network is_error_status
                status_message response_json self sent Hinit Hkey) as H.
  rewrite Hrun in H. destruct H as (_ & Hinit' & _ & Hsame & _).
  pose proof (api_key_same_configuration self self' Hsame) as Hk.
  assert (base_url self = base_url self') as Hu by apply Hsame.
  rewrite Hk, Hu. rewrite Hk in Hkey.
  pose proof (handshake_post lower environ network is_error_status
                status_message response_json self' later Hinit' Hkey) as H.
  destruct (handshake (self', later)) as [[[]|e'] [self'' sent'']]; cbn [snd].
  - destruct H as (_ & _ & ->). eexists. reflexivity.
  - destruct H as (_ & _ & _ & _ & n & Hn & ->).
    destruct n as [|n]; [lia|]. eexists. reflexivity.
Qed.

(** A discovered tool without a name stops the loop: it is stored under
    [None], [name.lower()] raises, the tools after it are not read, and
    what the tools before it wrote stays written. *)
Theorem discover_stops_at_nameless_tool (self : search_tool)
    (sent : list request) (before after : list tool) (t : tool) :
  Forall named before ->
  tool_name t = None ->
  discover lower (before ++ t :: after) (self, sent)
  = (Raise (PyException "'NoneType' object has no attribute 'lower'"),
     (set_available_tools
        (Dict.set None t
           (_available_tools (fold_left (discover_step lower) before self)))
        (fold_left (discover_step lower) before self),
      sent)).
Proof.
  intros Hbefore Hname. revert self.
  induction Hbefore as [|b before [n Hn] _ IH]; intros self.
  - cbn [app fold_left discover]. rewrite Hname.
    unfold Eff.bind, Eff.modify_self, Eff.raise. reflexivity.
  - cbn [app fold_left discover]. rewrite Hn.
    unfold Eff.bind at 1. unfold Eff.modify_self at 1. cbn [fst snd].
    unfold Eff.bind at 1.
    assert (forall st,
              (if search_like lower n
               then Eff.modify_self (set_search_tool_name (Some n))
               else Eff.ret tt)
                (set_available_tools (Dict.set (Some n) b (_available_tools self)) self, st)
              = (Ok tt, (discover_step lower self b, st))) as Hstep.
    { intros st. unfold discover_step. rewrite Hn.
      destruct (search_like lower n); reflexivity. }
    rewrite Hstep. apply IH.
Qed.

End RetryFacts.

Lemma handshake_idempotent_run :
  _ensure_session_initialized Str.ascii_lower ∅ network_unavailable http_error
    (fun _ => "") (mcp_json [] []) (ready_tool, [HttpGet "https://example.com"])
  = (Ok tt, (ready_tool, [HttpGet "https://example.com"])).
Proof.
  apply (handshake_idempotent Str.ascii_lower ∅ network_unavailable http_error
           (fun _ => "") (mcp_json [] []) ready_tool ready_tool [] []
           [HttpGet "https://example.com"]).
  reflexivity.
Defined.

Lemma failed_handshake_is_retried_run :
  exists more,
    snd (snd (_ensure_session_initialized Str.ascii_lower ∅ network_unavailable
                http_error (fun _ => "") (mcp_json [] [])
                (keyed_tool,
                 [HttpPost (base_url keyed_tool) "sk-test" Initialize])))
    = ([HttpPost (base_url keyed_tool) "sk-test" Initialize]
       ++ HttpPost (base_url keyed_tool) (api_key ∅ keyed_tool) Initialize
       :: more)%list.
Proof.
  apply (failed_handshake_is_retried Str.ascii_lower ∅ network_unavailable
           http_error (fun _ => "") (mcp_json [] [])
           keyed_tool keyed_tool []
           [HttpPost (base_url keyed_tool) "sk-test" Initialize]
           [HttpPost (base_url keyed_tool) "sk-test" Initialize]
           (RuntimeError "HTTP error 503: Failed to initialize MCP session")).
  - reflexivity.
  - reflexivity.
  - vm_compute. reflexivity.
Defined.

Lemma discover_stops_at_nameless_tool_run :
  discover Str.ascii_lower
    ([tool_named "web_search" schema_query_count]
     ++ {| tool_name := None; tool_inputSchema := None |}
     :: [tool_named "bing_search" schema_search_query])
    (keyed_tool, [])
  = (Raise (PyException "'NoneType' object has no attribute 'lower'"),
     (set_available_tools
        (Dict.set None {| tool_name := None; tool_inputSchema := None |}
           (_available_tools
              (fold_left (discover_step Str.ascii_lower)
                 [tool_named "web_search" schema_query_count] keyed_tool)))
        (fold_left (discover_step Str.ascii_lower)
           [tool_named "web_search" schema_query_count] keyed_tool),
      [])).
Proof.
  apply (discover_stops_at_nameless_tool Str.ascii_lower keyed_tool []
           [tool_named "web_search" schema_query_count]
           [tool_named "bing_search" schema_search_query]
           {| tool_name := None; tool_inputSchema := None |}).
  - repeat constructor. now exists "web_search".
  - reflexivity.
Defined.

Lemma fallback_first_discovered_run :
  exists found ready,
    discover Str.ascii_lower
      (tool_named "calculator" schema_unknown
       :: [tool_named "translate" schema_query_count])
      (new_search_tool (Some "sk-test") 10, [])
    = (Ok tt, (found, []))
    /\ _search_tool_name found = None
    /\ exists selected, select_tool (found, []) = (Ok tt, (ready, []))
    /\ _search_tool_name ready = Some "calculator"
    /\ Dict.get (Some "calculator") (_available_tools found) = Some selected
    /\ _input_schema ready = default empty_schema (tool_inputSchema selected).
Proof.
  apply (fallback_first_discovered Str.ascii_lower (Some "sk-test") 10 []
           (tool_named "calculator" schema_unknown)
           [tool_named "translate" schema_query_count] "calculator").
  - reflexivity.
  - reflexivity.
  - repeat constructor.
    + exists "calculator". split; reflexivity.
    + exists "translate". split; reflexivity.
Defined.
